(** * rhino3dm [script/setup.py]: the platform-setup orchestrator

    A shallow embedding of [script/setup.py] and the verification of its
    specification.  The script drives CMake, msbuild and MethodGen through
    subprocesses and decides by looking at the file system, so the embedding
    threads an explicit [world] (file system, working directory, module
    globals, and a log of everything the script prints, spawns or sleeps on)
    through a monad with three ways to finish: a normal return, [sys.exit]
    and an uncaught exception.

    Modelling conventions:
    - the interpreter is Python 3 (the [sys.version_info[0] < 3] branches
      differ only in decoding);
    - [os.path] is [posixpath]; a path string is kept in parsed form, a flag
      for a leading slash and the list of its components, and rendered back
      to text where the script concatenates it into a message or a command;
    - the file system has regular files and directories, no symbolic links;
    - on Windows the script replaces backslashes in the paths it puts on a
      command line; path components hold no backslash, so the replacement
      acts on the rendered text only;
    - an external process is a finite observation: the lines it writes, the
      number of loop iterations for which [poll()] still answers [None], its
      exit status, and the file system it leaves behind, which takes effect
      at the launch; a launch is logged whether or not it succeeds;
    - the [bootstrap] module is not part of the script: what it answers is a
      parameter of the host. *)

From Stdlib Require Import ZArith Ascii String.
From stdpp Require Import gmap strings list.

Open Scope Z_scope.
Open Scope string_scope.

(** ** Strings *)

Definition is_space (c : ascii) : bool :=
  let n := nat_of_ascii c in
  ((9 <=? n) && (n <=? 13) || (n =? 32))%nat.

Fixpoint lstrip (s : string) : string :=
  match s with
  | String c s' => if is_space c then lstrip s' else s
  | EmptyString => EmptyString
  end.

Fixpoint rstrip (s : string) : string :=
  match s with
  | String c s' =>
      match rstrip s' with
      | EmptyString => if is_space c then EmptyString else String c EmptyString
      | r => String c r
      end
  | EmptyString => EmptyString
  end.

(** [str.strip()] *)
Definition strip (s : string) : string := rstrip (lstrip s).

Definition lower_ascii (c : ascii) : ascii :=
  let n := nat_of_ascii c in
  if ((65 <=? n) && (n <=? 90))%nat then ascii_of_nat (n + 32) else c.

Definition upper_ascii (c : ascii) : ascii :=
  let n := nat_of_ascii c in
  if ((97 <=? n) && (n <=? 122))%nat then ascii_of_nat (n - 32) else c.

Fixpoint map_string (f : ascii -> ascii) (s : string) : string :=
  match s with
  | String c s' => String (f c) (map_string f s')
  | EmptyString => EmptyString
  end.

(** [str.lower()] and [str.upper()] *)
Definition lower : string -> string := map_string lower_ascii.
Definition upper : string -> string := map_string upper_ascii.

(** [s.replace('\\', '//')] *)
Fixpoint replace_backslash (s : string) : string :=
  match s with
  | String c s' =>
      if (nat_of_ascii c =? 92)%nat then "//" +:+ replace_backslash s'
      else String c (replace_backslash s')
  | EmptyString => EmptyString
  end.

Definition dquote : string := String (ascii_of_nat 34) EmptyString.

(** Python truthiness of a string *)
Definition truthy (s : string) : bool :=
  match s with EmptyString => false | _ => true end.

(** [", ".join(l)] *)
Fixpoint join_with (sep : string) (l : list string) : string :=
  match l with
  | [] => EmptyString
  | [x] => x
  | x :: l' => x +:+ sep +:+ join_with sep l'
  end.

(** ** Paths *)

(** A path string in parsed form.  [Path false []] is the empty string. *)
Record path := Path { is_abs : bool; comps : list string }.

Definition empty_path : path := Path false [].

Definition path_eqb (p q : path) : bool :=
  bool_decide (is_abs p = is_abs q) && bool_decide (comps p = comps q).

(** [os.path.join(p, name)] for a relative [name] *)
Definition path_join (p : path) (name : string) : path :=
  Path (is_abs p) (comps p ++ [name]).

(** One step of path resolution from a directory given by its components. *)
Definition walk_step (dir : list string) (c : string) : list string :=
  if bool_decide (c = EmptyString) || bool_decide (c = ".") then dir
  else if bool_decide (c = "..") then removelast dir
  else dir ++ [c].

Definition walk (dir : list string) (cs : list string) : list string :=
  fold_left walk_step cs dir.

(** Components of the absolute, normalised form of [p] seen from [cwd]. *)
Definition resolve (cwd : list string) (p : path) : list string :=
  walk (if is_abs p then [] else cwd) (comps p).

(** The text of a path. *)
Definition render (p : path) : string :=
  (if is_abs p then "/" else EmptyString) +:+ join_with "/" (comps p).

(** ** File system *)

Inductive kind := File | Dir.

#[global] Instance kind_eq_dec : EqDecision kind.
Proof. solve_decision. Defined.

Abbreviation filesystem := (gmap (list string) kind).

(** The root directory always exists. *)
Definition fs_kind (fs : filesystem) (p : list string) : option kind :=
  match p with
  | [] => Some Dir
  | _ => fs !! p
  end.

Definition is_prefix (p q : list string) : bool :=
  bool_decide (take (length p) q = p).

(** What [shutil.rmtree p] leaves. *)
Definition fs_rmtree (fs : filesystem) (p : list string) : filesystem :=
  filter (fun kv => negb (is_prefix p kv.1)) fs.

(** ** Events, processes and the world *)

Inductive event :=
| EvPrint (line : string)                  (* [print(line)] *)
| EvSpawn (command : string) (dir : list string)
                                           (* [subprocess.Popen(shlex.split(command), ...)]
                                              called in working directory [dir] *)
| EvSleep (seconds : Z)                    (* [time.sleep(seconds)] *)
| EvMkdir (p : list string)                (* [os.mkdir] that succeeded *)
| EvRemove (p : list string)               (* [os.remove] that succeeded *)
| EvRmtree (p : list string)               (* [shutil.rmtree] *)
| EvChdir (p : list string)                (* [os.chdir] that succeeded *)
| EvHelp.                                  (* [parser.print_help(sys.stderr)] *)

(** What the script can observe of one external process. *)
Record process := Process {
  p_stdout : list string;      (* the lines [stdout.readline()] yields, then EOF *)
  p_stderr : list string;      (* the lines [stderr.readline()] yields, then EOF *)
  p_alive : nat;               (* loop iterations for which [poll()] is [None] *)
  p_rc : Z;                    (* the exit status [poll()] answers afterwards *)
  p_fs : filesystem            (* the file system the process leaves *)
}.

Inductive exn :=
| FileNotFoundError | FileExistsError | IsADirectoryError | NotADirectoryError
| TypeError | AttributeError.

(** The file-system exceptions are subclasses of [OSError]. *)
Definition is_OSError (e : exn) : bool :=
  match e with
  | TypeError | AttributeError => false
  | _ => true
  end.

(** Python values the setup functions return. *)
#[warnings="-register-all"]
Inductive pyval :=
| PyNone
| PyBool (b : bool)
| PyDict (items : list (string * pyval)).

Record world := World {
  fs : filesystem;
  cwd : list string;
  log : list event;                        (* oldest event first *)
  xcode_logging : bool;                    (* module globals *)
  verbose : bool;
  overwrite : bool;
  librhino3dm_native_folder : string
}.

(** The host: the platform name, where the script lives, what the absent
    [bootstrap] module answers, and how commands behave. *)
Record env := Env {
  _platform : string;                      (* [sys.platform] *)
  script_folder : list string;             (* absolute and normalised *)
  check_ndk : path;                        (* [bootstrap.check_ndk(build_tools["ndk"])] *)
  check_msbuild : string;                  (* [bootstrap.check_msbuild(build_tools["msbuild"])] *)
  popen : string -> filesystem -> list string -> option process
                                           (* command, file system and working directory
                                              at launch; [None]: the launch raises OSError *)
}.

(** ** The monad *)

Inductive outcome (A : Type) :=
| Ret (a : A) (w : world)                   (* normal completion *)
| Exit (status : Z) (w : world)             (* [sys.exit(status)] reached the top *)
| Raise (e : exn) (w : world).              (* an exception travelling upwards *)
Arguments Ret {A} a w.
Arguments Exit {A} status w.
Arguments Raise {A} e w.

Definition M (A : Type) : Type := world -> outcome A.

#[global] Instance M_ret : MRet M := fun A a w => Ret a w.
#[global] Instance M_bind : MBind M := fun A B f m w =>
  match m w with
  | Ret a w' => f a w'
  | Exit s w' => Exit s w'
  | Raise e w' => Raise e w'
  end.

(** Pure updates of the world. *)
Definition add_event (e : event) (w : world) : world :=
  World (fs w) (cwd w) (log w ++ [e]) (xcode_logging w) (verbose w)
        (overwrite w) (librhino3dm_native_folder w).
Definition with_fs (f : filesystem) (w : world) : world :=
  World f (cwd w) (log w) (xcode_logging w) (verbose w)
        (overwrite w) (librhino3dm_native_folder w).
Definition with_cwd (d : list string) (w : world) : world :=
  World (fs w) d (log w) (xcode_logging w) (verbose w)
        (overwrite w) (librhino3dm_native_folder w).
Definition with_native (s : string) (w : world) : world :=
  World (fs w) (cwd w) (log w) (xcode_logging w) (verbose w) (overwrite w) s.
Definition with_flags (x v o : bool) (w : world) : world :=
  World (fs w) (cwd w) (log w) x v o (librhino3dm_native_folder w).

Definition get {A} (f : world -> A) : M A := fun w => Ret (f w) w.
Definition emit (e : event) : M unit := fun w => Ret tt (add_event e w).
Definition set_fs (f : filesystem) : M unit := fun w => Ret tt (with_fs f w).
Definition set_cwd (d : list string) : M unit := fun w => Ret tt (with_cwd d w).
Definition set_librhino3dm_native_folder (s : string) : M unit :=
  fun w => Ret tt (with_native s w).
Definition set_flags (x v o : bool) : M unit := fun w => Ret tt (with_flags x v o w).
Definition raise {A} (e : exn) : M A := fun w => Raise e w.

(** [sys.exit(status)] *)
Definition sys_exit {A} (status : Z) : M A := fun w => Exit status w.

(** [try: body  except: handler] with a bare [except], which also catches
    [SystemExit]. *)
Definition try_except_all {A} (body handler : M A) : M A := fun w =>
  match body w with
  | Ret a w' => Ret a w'
  | Exit _ w' => handler w'
  | Raise _ w' => handler w'
  end.

(** [try: body  except OSError: handler] *)
Definition try_except_OSError {A} (body handler : M A) : M A := fun w =>
  match body w with
  | Raise e w' => if is_OSError e then handler w' else Raise e w'
  | r => r
  end.

(** Python truthiness of a value, as [not v] and [if v] read it. *)
Definition py_truthy (v : pyval) : bool :=
  match v with
  | PyNone => false
  | PyBool b => b
  | PyDict items => negb (bool_decide (items = []))
  end.

(** ** Operating-system calls *)

Definition print (line : string) : M unit := emit (EvPrint line).

(** [time.sleep] *)
Definition sleep (seconds : Z) : M unit := emit (EvSleep seconds).

(** [os.path.abspath] *)
Definition abspath (p : path) : M path :=
  d ← get cwd; mret (Path true (resolve d p)).

(** What a path string names: nothing for the empty string, else what the
    file system has where the path resolves to. *)
Definition path_kind (w : world) (p : path) : option kind :=
  if path_eqb p empty_path then None else fs_kind (fs w) (resolve (cwd w) p).

Definition lookup_path (p : path) : M (option kind) := get (fun w => path_kind w p).

(** [os.path.exists], [os.path.isfile], [os.path.isdir] *)
Definition os_path_exists (p : path) : M bool :=
  k ← lookup_path p; mret (bool_decide (is_Some k)).
Definition os_path_isfile (p : path) : M bool :=
  k ← lookup_path p; mret (bool_decide (k = Some File)).
Definition os_path_isdir (p : path) : M bool :=
  k ← lookup_path p; mret (bool_decide (k = Some Dir)).

(** [os.mkdir]: the parent must be a directory and the name free. *)
Definition os_mkdir (p : path) : M unit :=
  w ← get id;
  let q := resolve (cwd w) p in
  if path_eqb p empty_path then raise FileNotFoundError
  else match fs_kind (fs w) q with
       | Some _ => raise FileExistsError
       | None =>
           match fs_kind (fs w) (removelast q) with
           | Some Dir => set_fs (<[q := Dir]> (fs w));; emit (EvMkdir q)
           | Some File => raise NotADirectoryError
           | None => raise FileNotFoundError
           end
       end.

(** The world a successful [os.mkdir] of [q] leaves. *)
Definition made (q : list string) (w : world) : world :=
  add_event (EvMkdir q) (with_fs (<[q := Dir]> (fs w)) w).

(** [os.remove] *)
Definition os_remove (p : path) : M unit :=
  k ← lookup_path p;
  w ← get id;
  let q := resolve (cwd w) p in
  match k with
  | Some File => set_fs (delete q (fs w));; emit (EvRemove q)
  | Some Dir => raise IsADirectoryError
  | None => raise FileNotFoundError
  end.

(** [shutil.rmtree] *)
Definition shutil_rmtree (p : path) : M unit :=
  k ← lookup_path p;
  w ← get id;
  let q := resolve (cwd w) p in
  match k with
  | Some Dir => set_fs (fs_rmtree (fs w) q);; emit (EvRmtree q)
  | Some File => raise NotADirectoryError
  | None => raise FileNotFoundError
  end.

(** [os.chdir] *)
Definition os_chdir (p : path) : M unit :=
  k ← lookup_path p;
  w ← get id;
  let q := resolve (cwd w) p in
  match k with
  | Some Dir => set_cwd q;; emit (EvChdir q)
  | Some File => raise NotADirectoryError
  | None => raise FileNotFoundError
  end.

(** ** Logging *)

Module bcolors.
Definition esc (code : string) : string := String (ascii_of_nat 27) code.
Definition HEADER := esc "[95m".
Definition OKBLUE := esc "[94m".
Definition OKGREEN := esc "[92m".
Definition WARNING := esc "[93m".
Definition FAIL := esc "[91m".
Definition ENDC := esc "[0m".
Definition BOLD := esc "[1m".
Definition UNDERLINE := esc "[4m".
End bcolors.

(** The line [print_warning_message] prints. *)
Definition warning_line (xcode : bool) (warning_message : string) : string :=
  let warning_prefix := " warning: " in
  if xcode then warning_prefix +:+ warning_message
  else bcolors.BOLD +:+ bcolors.FAIL +:+ upper warning_prefix +:+ bcolors.ENDC +:+
       bcolors.FAIL +:+ warning_message +:+ bcolors.ENDC.

Definition error_line (xcode : bool) (error_message : string) : string :=
  let error_prefix := " error: " in
  if xcode then error_prefix +:+ error_message
  else bcolors.BOLD +:+ bcolors.FAIL +:+ upper error_prefix +:+ bcolors.ENDC +:+
       bcolors.FAIL +:+ error_message +:+ bcolors.ENDC.

Definition ok_line (xcode : bool) (ok_message : string) : string :=
  let ok_prefix := " ok: " in
  if xcode then ok_prefix +:+ ok_message
  else bcolors.BOLD +:+ bcolors.OKBLUE +:+ upper ok_prefix +:+ bcolors.ENDC +:+
       bcolors.OKBLUE +:+ ok_message +:+ bcolors.ENDC.

(** A heading: plain under [xcode_logging], bold otherwise. *)
Definition heading_line (xcode : bool) (plain fancy : string) : string :=
  if xcode then plain else bcolors.BOLD +:+ fancy +:+ bcolors.ENDC.

Definition print_warning_message (warning_message : string) : M unit :=
  x ← get xcode_logging; print (warning_line x warning_message).

Definition print_error_message (error_message : string) : M unit :=
  x ← get xcode_logging; print (error_line x error_message).

Definition print_ok_message (ok_message : string) : M unit :=
  x ← get xcode_logging; print (ok_line x ok_message).

Definition print_heading (plain fancy : string) : M unit :=
  x ← get xcode_logging; print (heading_line x plain fancy).

(** ** Module constants *)

Definition valid_platform_args : list string :=
  ["js"; "ios"; "macos"; "android"; "windows"].

Definition platform_full_names : gmap string string :=
  list_to_map [("js", "JavaScript"); ("ios", "iOS"); ("macos", "macOS");
               ("android", "Android"); ("windows", "Windows")].

(** [readline()] on a pipe: the next line, or the empty string at EOF. *)
Definition readline (pipe : list string) : string * list string :=
  match pipe with
  | [] => (EmptyString, [])
  | line :: rest => (line, rest)
  end.

(** The [while True] loop of [run_command].  [alive] counts the iterations in
    which [process.poll()] still answers [None]; the iteration after the last
    of them takes the [break].  The local [verbose] is always [True]. *)
Fixpoint run_command_loop (suppress_errors : bool) (alive : nat)
    (stdout stderr : list string) : M unit :=
  match alive with
  | O => mret tt
  | S alive' =>
      let '(line, stdout') := readline stdout in
      if truthy line then
        print (strip line);;
        run_command_loop suppress_errors alive' stdout' stderr
      else if negb suppress_errors then
        let '(error, stderr') := readline stderr in
        if truthy error then
          print_error_message (strip error);;
          sys_exit 1
        else run_command_loop suppress_errors alive' stdout' stderr'
      else run_command_loop suppress_errors alive' stdout' stderr
  end.

Section Setup.

Context (E : env).

Definition on_windows : bool :=
  bool_decide (_platform E = "win32") || bool_decide (_platform E = "win64").

Definition on_darwin : bool := bool_decide (_platform E = "darwin").

(** The text of a path after the [replace('\\', '//')] the script applies on
    Windows before it hands the path to [run_command]. *)
Definition command_text (p : path) : string :=
  if on_windows then replace_backslash (render p) else render p.

Definition src_folder : path :=
  Path true (resolve [] (Path true (script_folder E ++ [".."; "src"]))).

Definition build_folder : path :=
  Path true (resolve [] (path_join src_folder "build")).

(** The value the global [librhino3dm_native_folder] has after import. *)
Definition initial_librhino3dm_native_folder : string :=
  render (Path true (resolve [] (path_join src_folder "librhino3dm_native"))).

(** [subprocess.Popen]: the launch is logged, may raise, and otherwise the
    process acts on the file system. *)
Definition launch (command : string) : M process :=
  w ← get id;
  emit (EvSpawn command (cwd w));;
  match popen E command (fs w) (cwd w) with
  | None => raise FileNotFoundError
  | Some pr => set_fs (p_fs pr);; mret pr
  end.

Definition run_command (command : string) (suppress_errors : bool) : M Z :=
  process ← launch command;
  run_command_loop suppress_errors (p_alive process) (p_stdout process)
    (if suppress_errors then [] else p_stderr process);;
  mret (p_rc process).

(** ** Platform setup *)

Definition print_platform_preamble (platform_target_name : string) : M unit :=
  print EmptyString;;
  print_heading ("Setting up " +:+ platform_target_name +:+ "...")
                ("Setting up " +:+ platform_target_name +:+ "...").

Definition check_or_create_path (target_path : path) : M path :=
  try_except_all
    (e ← os_path_exists target_path;
     (if negb e then os_mkdir target_path else mret tt);;
     mret target_path)
    (mret empty_path).

Definition overwrite_check (item_to_check : path) : M pyval :=
  e ← os_path_exists item_to_check;
  if (e : bool) then
    o ← get overwrite;
    if negb o then
      print_warning_message ("A configuration already appears in " +:+ render item_to_check +:+
                             ". Use --overwrite to replace.");;
      mret (PyBool false)
    else
      f ← os_path_isfile item_to_check;
      (if (f : bool) then os_remove item_to_check else mret tt);;
      d ← os_path_isdir item_to_check;
      (if (d : bool) then shutil_rmtree item_to_check;; sleep 2 else mret tt);;
      mret (PyBool true)
  else mret (PyBool true).

Definition setup_did_succeed (item_to_check : path) : M bool :=
  e ← os_path_exists item_to_check;
  if (e : bool) then
    print_ok_message ("successfully wrote: " +:+ render item_to_check);;
    mret true
  else
    print_error_message ("failed to configure and generate " +:+ render item_to_check);;
    mret false.

Definition build_methodgen : M pyval :=
  print_heading " Building MethodGen..." " Building MethodGen...";;
  path_to_methodgen_csproj ← abspath (path_join (path_join src_folder "methodgen") "methodgen.csproj");
  let msbuild_path :=
    if on_windows then replace_backslash (check_msbuild E) else "msbuild" in
  let command := msbuild_path +:+ " " +:+ command_text path_to_methodgen_csproj +:+
                 " /p:Configuration=Release" in
  run_command command false;;
  item_to_check ← abspath (path_join src_folder "MethodGen.exe");
  e ← os_path_exists item_to_check;
  if (e : bool) then
    print_ok_message ("successfully built: " +:+ render item_to_check);;
    mret (PyBool true)
  else
    print_error_message ("failed to build " +:+ render item_to_check +:+ " for macOS build");;
    mret (PyBool false).

(** The command line [run_methodgen] hands to [run_command]. *)
Definition methodgen_command (path_to_methodgen_exe path_to_cs : path)
    (path_to_cpp : string) : string :=
  (if on_darwin then "mono " else EmptyString) +:+
  command_text path_to_methodgen_exe +:+ " " +:+
  (if on_windows then replace_backslash path_to_cpp else path_to_cpp) +:+ " " +:+
  command_text path_to_cs +:+ " " +:+ "../lib/opennurbs" +:+ " rhino3dm".

(** Falls off its end, so answers [None], when the generated file is there. *)
Definition run_methodgen : M pyval :=
  print_heading " Running MethodGen..." " Running MethodGen...";;
  path_to_methodgen_exe ← abspath (path_join src_folder "MethodGen.exe");
  e ← os_path_exists path_to_methodgen_exe;
  if negb e then
    print_error_message "MethodGen.exe not found.";;
    mret (PyBool false)
  else
    path_to_cpp ← get librhino3dm_native_folder;
    path_to_cs ← abspath (path_join src_folder "dotnet");
    item_to_check ← abspath (path_join path_to_cs "AutoNativeMethods.cs");
    stale ← os_path_exists item_to_check;
    (if (stale : bool) then os_remove item_to_check else mret tt);;
    run_command (methodgen_command path_to_methodgen_exe path_to_cs path_to_cpp) false;;
    e' ← os_path_exists item_to_check;
    if (e' : bool) then
      print_ok_message ("successfully generated: " +:+ render item_to_check);;
      mret PyNone
    else
      print_error_message ("failed to generate " +:+ render item_to_check +:+ " for macOS build");;
      mret (PyBool false).

Definition platform_dir (target : string) : M string :=
  match platform_full_names !! target with
  | Some name => mret (lower name)
  | None => raise AttributeError
  end.

Definition setup_macos : M pyval :=
  if negb on_darwin then
    print_error_message "Generating project file for macOS requires that you run this script on macOS";;
    mret (PyBool false)
  else
    dir ← platform_dir "macos";
    target_path ← check_or_create_path (path_join build_folder dir);
    let target_file_name := "librhino3dm_native.xcodeproj" in
    item_to_check ← abspath (path_join target_path target_file_name);
    ok ← overwrite_check item_to_check;
    if negb (py_truthy ok) then mret (PyBool false)
    else
      os_chdir target_path;;
      print EmptyString;;
      print_heading "Generating xcodeproj files for macOS..."
                    "Generating xcodeproj files for macOS...";;
      native ← get librhino3dm_native_folder;
      let command := "cmake -G " +:+ dquote +:+ "Xcode" +:+ dquote +:+ " -DMACOS_BUILD=1 " +:+ native in
      run_command command false;;
      build_methodgen;;
      run_methodgen;;
      r ← setup_did_succeed item_to_check;
      mret (PyBool r).

Definition setup_ios : M pyval :=
  if negb on_darwin then
    print_error_message "Generating project file for iOS requires that you run this script on macOS";;
    mret (PyBool false)
  else
    dir ← platform_dir "ios";
    target_path ← check_or_create_path (path_join build_folder dir);
    let target_file_name := "librhino3dm_native.xcodeproj" in
    item_to_check ← abspath (path_join target_path target_file_name);
    ok ← overwrite_check item_to_check;
    if negb (py_truthy ok) then mret (PyBool false)
    else
      os_chdir target_path;;
      print EmptyString;;
      print_heading "Generating xcodeproj files for iOS..."
                    "Generating xcodeproj files for iOS...";;
      native ← get librhino3dm_native_folder;
      let command := "cmake -G " +:+ dquote +:+ "Xcode" +:+ dquote +:+
                     " -DCMAKE_TOOLCHAIN_FILE=../../src/ios.toolchain.cmake -DPLATFORM=OS64COMBINED " +:+
                     "-DDEPLOYMENT_TARGET=9.3 " +:+ native in
      run_command command false;;
      build_methodgen;;
      run_methodgen;;
      r ← setup_did_succeed item_to_check;
      mret (PyBool r).

Definition emcmake_command : string :=
  "emcmake cmake -DCMAKE_CXX_FLAGS=" +:+ dquote +:+ "-s MODULARIZE=1 -s 'EXPORT_NAME=\" +:+ dquote +:+
  "rhino3dm\" +:+ dquote +:+ "'" +:+ dquote +:+ " " +:+ render src_folder.

Definition setup_js : M pyval :=
  dir ← platform_dir "js";
  target_path ← check_or_create_path (path_join build_folder dir);
  item_to_check ← abspath (path_join target_path "Makefile");
  ok ← overwrite_check item_to_check;
  if negb (py_truthy ok) then mret (PyBool false)
  else
    os_chdir target_path;;
    p ← try_except_OSError
           (pr ← launch emcmake_command; mret (Some pr))
           (print_error_message "could not find emcmake command.  Run the bootstrap.py --check emscripten";;
            mret None);
    match p with
    | None => mret (PyBool false)
    | Some pr =>
        (* [p.communicate()] *)
        let output := String.concat EmptyString (p_stdout pr) in
        let err := String.concat EmptyString (p_stderr pr) in
        v ← get verbose;
        (if truthy output then (if (v : bool) then print output else mret tt)
         else if truthy err then print_error_message err
         else mret tt);;
        r ← setup_did_succeed item_to_check;
        mret (PyBool r)
    end.

Definition app_abis : list string := ["armeabi-v7a"; "arm64-v8a"; "x86_64"; "x86"].

Definition android_command (android_toolchain_path app_abi native : string) : string :=
  "cmake -DCMAKE_TOOLCHAIN_FILE=" +:+ android_toolchain_path +:+ " -DANDROID_ABI=" +:+ app_abi +:+
  " -DANDROID_PLATFORM=android-24 -DCMAKE_ANDROID_STL_TYPE=c++_shared " +:+ native.

(** How the [for app_abi in app_abis] loop is left. *)
Inductive loop_exit :=
| LoopDone                      (* the list is exhausted *)
| LoopBreak                     (* [break] *)
| LoopReturn (v : pyval).       (* [return v] from inside the loop *)

Fixpoint android_loop (target_path : path) (android_toolchain_path : string)
    (abis : list string) : M loop_exit :=
  match abis with
  | [] => mret LoopDone
  | app_abi :: rest =>
      abi_target_path ← check_or_create_path (path_join target_path app_abi);
      item_to_check ← abspath (path_join abi_target_path "Makefile");
      ok ← overwrite_check item_to_check;
      if negb (py_truthy ok) then mret (LoopReturn (PyBool false))
      else
        os_chdir abi_target_path;;
        print EmptyString;;
        print_heading ("Generating Makefile for Android (" +:+ app_abi +:+ ")...")
                      ("Generating Makefile Android (" +:+ app_abi +:+ ")...");;
        native ← get librhino3dm_native_folder;
        run_command (android_command android_toolchain_path app_abi native) false;;
        sleep 2;;
        r ← setup_did_succeed item_to_check;
        if negb r then mret LoopBreak
        else android_loop target_path android_toolchain_path rest
  end.

(** Falls off its end: [None] unless a variant's gate returned [False]. *)
Definition setup_android : M pyval :=
  let android_ndk_path := check_ndk E in
  let android_toolchain_path :=
    render (path_join (path_join (path_join android_ndk_path "build") "cmake")
                      "android.toolchain.cmake") in
  dir ← platform_dir "android";
  target_path ← check_or_create_path (path_join build_folder dir);
  l ← android_loop target_path android_toolchain_path app_abis;
  match l with
  | LoopReturn v => mret v
  | _ =>
      build_methodgen;;
      run_methodgen;;
      mret PyNone
  end.

Definition setup_windows : M pyval :=
  if negb on_windows then
    print_error_message "Generating project file for Windows requires that you run this script on Windows";;
    mret (PyBool false)
  else
    dir ← platform_dir "windows";
    target_path ← check_or_create_path (path_join build_folder dir);
    let target_file_name := "librhino3dm_native.vcxproj" in
    item_to_check ← abspath (path_join target_path target_file_name);
    ok ← overwrite_check item_to_check;
    if negb (py_truthy ok) then mret (PyBool false)
    else
      os_chdir target_path;;
      print EmptyString;;
      print_heading "Generating vcxproj files for Windows native build..."
                    "Generating vcxproj files for Windows native build";;
      native ← get librhino3dm_native_folder;
      set_librhino3dm_native_folder (replace_backslash native);;
      native' ← get librhino3dm_native_folder;
      let command := "cmake -G " +:+ dquote +:+ "Visual Studio 15 2017" +:+ dquote +:+ " " +:+ native' in
      run_command command false;;
      build_methodgen;;
      run_methodgen;;
      r ← setup_did_succeed item_to_check;
      mret (PyBool r).

(** [getattr(sys.modules[__name__], 'setup_' + target)] *)
Definition setup_function (target : string) : option (M pyval) :=
  if bool_decide (target = "js") then Some setup_js
  else if bool_decide (target = "ios") then Some setup_ios
  else if bool_decide (target = "macos") then Some setup_macos
  else if bool_decide (target = "android") then Some setup_android
  else if bool_decide (target = "windows") then Some setup_windows
  else None.

(** The two lines both branches of [setup_handler] run for one target; the
    value of the setup function is dropped. *)
Definition setup_target (target : string) : M unit :=
  match platform_full_names !! target with
  | Some name => print_platform_preamble name
  | None => raise TypeError
  end;;
  match setup_function target with
  | Some setup => setup;; mret tt
  | None => raise AttributeError
  end.

Fixpoint setup_targets (targets : list string) : M unit :=
  match targets with
  | [] => mret tt
  | target :: rest => setup_target target;; setup_targets rest
  end.

(** The first two lines of [setup_handler]. *)
Definition ensure_build_folder : M unit :=
  e ← os_path_exists build_folder;
  if negb e then os_mkdir build_folder else mret tt.

Definition setup_handler (platform_target : string) : M pyval :=
  ensure_build_folder;;
  (if bool_decide (platform_target = "all") then setup_targets valid_platform_args
   else setup_target platform_target);;
  mret PyNone.

Definition delete_cache_file : M unit :=
  let path_to_bootstrapc_file := path_join (Path true (script_folder E)) "bootstrap.pyc" in
  e ← os_path_exists path_to_bootstrapc_file;
  if (e : bool) then os_remove path_to_bootstrapc_file else mret tt.

(** ** Main *)

(** What [argparse] hands to [main]. *)
Record args := Args {
  a_platform : option (list string);
  a_verbose : bool;
  a_overwrite : bool;
  a_xcodelog : bool
}.

Definition invalid_platform_message (platform_target : string) : string :=
  platform_target +:+ " is not a valid platform argument. valid tool arguments: all, " +:+
  join_with ", " valid_platform_args +:+ ".".

Fixpoint main_loop (platforms : list string) : M unit :=
  match platforms with
  | [] => mret tt
  | platform_target :: rest =>
      (if negb (bool_decide (platform_target = "all")) &&
          negb (bool_decide (platform_target ∈ valid_platform_args))
       then print_error_message (invalid_platform_message platform_target);;
            sys_exit 1
       else mret tt);;
      setup_handler platform_target;;
      main_loop rest
  end.

(** [argc] is [len(sys.argv)]. *)
Definition main (argc : nat) (a : args) : M unit :=
  if bool_decide (argc = 1%nat) then
    emit EvHelp;;
    sys_exit 1
  else
    set_flags (a_xcodelog a || bool_decide (_platform E = "win32")) (a_verbose a) (a_overwrite a);;
    os_chdir (Path true (script_folder E));;
    match a_platform a with
    | Some platforms => main_loop platforms
    | None => mret tt
    end;;
    delete_cache_file.

End Setup.

(** ** Worlds the gate leaves *)

(** After [os.remove] of the file at [q]. *)
Definition removed (q : list string) (w : world) : world :=
  add_event (EvRemove q) (with_fs (delete q (fs w)) w).

(** After [shutil.rmtree] of the directory at [q] and the two-second sleep. *)
Definition cleared (q : list string) (w : world) : world :=
  add_event (EvSleep 2)
    (add_event (EvRmtree q) (with_fs (fs_rmtree (fs w) q) w)).

(** After the warning that [item_to_check] is already configured. *)
Definition warned (item_to_check : path) (w : world) : world :=
  add_event (EvPrint (warning_line (xcode_logging w)
               ("A configuration already appears in " +:+ render item_to_check +:+
                ". Use --overwrite to replace."))) w.

(** After [print_error_message]. *)
Definition reported (error_message : string) (w : world) : world :=
  add_event (EvPrint (error_line (xcode_logging w) error_message)) w.

(** ** Auxiliary notions *)

(** Components that path resolution keeps as they are. *)
Definition normal (l : list string) : Prop :=
  Forall (fun c => c <> EmptyString /\ c <> "." /\ c <> "..") l.

(** The world an outcome ends in. *)
Definition final {A} (r : outcome A) : world :=
  match r with Ret _ w | Exit _ w | Raise _ w => w end.

(** What an outcome returns, exits with or raises, if it does. *)
Definition value {A} (r : outcome A) : option A :=
  match r with Ret a _ => Some a | _ => None end.
Definition exit_status {A} (r : outcome A) : option Z :=
  match r with Exit s _ => Some s | _ => None end.
Definition raised {A} (r : outcome A) : option exn :=
  match r with Raise e _ => Some e | _ => None end.

(** The launches in a log, oldest first. *)
Definition spawned (l : list event) : list (string * list string) :=
  flat_map (fun e => match e with EvSpawn c d => [(c, d)] | _ => [] end) l.

(** [w'] differs from [w] at most in the file system and in log entries that
    are not launches. *)
Definition quiet (w w' : world) : Prop :=
  spawned (log w') = spawned (log w) /\ cwd w' = cwd w /\
  xcode_logging w' = xcode_logging w /\ verbose w' = verbose w /\
  overwrite w' = overwrite w /\
  librhino3dm_native_folder w' = librhino3dm_native_folder w.

(** ** Artifact locations *)

(** Where [MethodGen.exe] is expected. *)
Definition methodgen_exe (E : env) : list string :=
  resolve [] (path_join (src_folder E) "MethodGen.exe").

(** The generated source file [run_methodgen] looks for. *)
Definition auto_native_methods (E : env) : list string :=
  resolve [] (path_join (path_join (src_folder E) "dotnet") "AutoNativeMethods.cs").

(** The success artifact of a platform that has one output directory. *)
Definition artifact (E : env) (dir file : string) : list string :=
  (comps (build_folder E) ++ [dir; file])%list.

(** After a heading. *)
Definition headed (plain fancy : string) (w : world) : world :=
  add_event (EvPrint (heading_line (xcode_logging w) plain fancy)) w.

(** ** Example hosts *)

(** A process that prints nothing, touches nothing and is already over when
    first polled. *)
Definition silent (f : filesystem) : process := Process [] [] 0 0 f.

(** A Linux host on which every command launches and does nothing. *)
Definition linux_host : env :=
  Env "linux" ["repo"; "script"] (Path true ["ndk"]) "msbuild"
      (fun _ f _ => Some (silent f)).

(** A checkout with nothing built yet. *)
Definition fresh_fs : filesystem :=
  list_to_map [(["repo"], Dir); (["repo"; "script"], Dir); (["repo"; "src"], Dir)].

Definition fresh_world : world :=
  World fresh_fs ["repo"; "script"] [] false false false
        (initial_librhino3dm_native_folder linux_host).

(** ** The gate seen from its callers *)

(** What [os.path.abspath(os.path.join(target_path, file))] is in [w]. *)
Definition item_under (target_path : path) (file : string) (w : world) : path :=
  Path true (resolve (cwd w) (path_join target_path file)).

(** The gate is closed in [w]: the item exists and overwriting is off. *)
Definition gate_closed (item : path) (w : world) : Prop :=
  is_Some (path_kind w item) /\ overwrite w = false.

(** A setup that started in [w0] and met the closed gate in [w]: it returns
    [False] right after the warning and has launched nothing. *)
Definition refused {A} (r : outcome A) (v : A) (item : path) (w0 w : world) : Prop :=
  r = Ret v (warned item w) /\
  spawned (log (warned item w)) = spawned (log w0).

(** The toolchain file [setup_android] passes to CMake. *)
Definition android_toolchain_path (E : env) : string :=
  render (path_join (path_join (path_join (check_ndk E) "build") "cmake")
                    "android.toolchain.cmake").

(** A checkout in which the JavaScript build was configured before. *)
Definition configured_fs : filesystem :=
  list_to_map [(["repo"], Dir); (["repo"; "script"], Dir); (["repo"; "src"], Dir);
               (["repo"; "src"; "build"], Dir);
               (["repo"; "src"; "build"; "javascript"], Dir);
               (["repo"; "src"; "build"; "javascript"; "Makefile"], File)].

Definition configured_world : world :=
  World configured_fs ["repo"; "script"] [] false false false
        (initial_librhino3dm_native_folder linux_host).

Definition js_makefile : path :=
  Path true ["repo"; "src"; "build"; "javascript"; "Makefile"].

(** ** Worlds a process leaves *)

(** After the launch of [pr] by [command]. *)
Definition launched (command : string) (pr : process) (w : world) : world :=
  with_fs (p_fs pr) (add_event (EvSpawn command (cwd w)) w).

(** After echoing the stdout lines [lines]. *)
Definition echoed (lines : list string) (w : world) : world :=
  fold_left (fun w line => add_event (EvPrint (strip line)) w) lines w.


(** A checkout whose build folder exists, seen from [platform]. *)
Definition built_fs : filesystem :=
  list_to_map [(["repo"], Dir); (["repo"; "script"], Dir); (["repo"; "src"], Dir);
               (["repo"; "src"; "build"], Dir)].

Definition built_world : world :=
  World built_fs ["repo"; "script"] [] false false false "/repo/src/librhino3dm_native".



(** What [main] does between parsing the arguments and its loop: it sets the
    three global flags and changes to the script's folder. *)
Definition main_prologue (E : env) (a : args) : M unit :=
  set_flags (a_xcodelog a || bool_decide (_platform E = "win32")) (a_verbose a) (a_overwrite a);;
  os_chdir (Path true (script_folder E)).

(** ** The dispatcher *)

(** After [print_platform_preamble]. *)
Definition preambled (platform_target_name : string) (w : world) : world :=
  headed ("Setting up " +:+ platform_target_name +:+ "...")
         ("Setting up " +:+ platform_target_name +:+ "...")
         (add_event (EvPrint EmptyString) w).

(** The specification's result of a dispatch: a mapping with one outcome for
    each platform of the enumerated set. *)
Definition is_outcome_mapping (v : pyval) : Prop :=
  exists items, v = PyDict items /\ map fst items = valid_platform_args.

(** ** Code generation *)

(** The command line of the code-generation run started in [w]. *)
Definition codegen_command (E : env) (w : world) : string :=
  methodgen_command E (Path true (methodgen_exe E))
    (Path true (resolve [] (path_join (src_folder E) "dotnet")))
    (librhino3dm_native_folder w).

(** The world in which [run_methodgen], started in [w], launches MethodGen:
    its heading is printed and a generated file of an earlier run is gone. *)
Definition codegen_launch_world (E : env) (w : world) : world :=
  let w1 := headed " Running MethodGen..." " Running MethodGen..." w in
  match fs_kind (fs w) (auto_native_methods E) with
  | Some File => removed (auto_native_methods E) w1
  | _ => w1
  end.

(** [w'] has the globals and the working directory of [w]. *)
Definition same_context (w w' : world) : Prop :=
  cwd w' = cwd w /\ xcode_logging w' = xcode_logging w /\ verbose w' = verbose w /\
  overwrite w' = overwrite w /\
  librhino3dm_native_folder w' = librhino3dm_native_folder w.

(** What [run_methodgen] does from the launch on, with [item] the generated
    file it checks for. *)
Definition codegen_run (E : env) (command : string) (item : path) : M pyval :=
  run_command E command false;;
  e' ← os_path_exists item;
  if (e' : bool) then
    print_ok_message ("successfully generated: " +:+ render item);;
    mret PyNone
  else
    print_error_message ("failed to generate " +:+ render item +:+ " for macOS build");;
    mret (PyBool false).

(** A host on which MethodGen writes its output file and every other
    command does nothing. *)
Definition codegen_host : env :=
  Env "linux" ["repo"; "script"] (Path true ["ndk"]) "msbuild"
      (fun command f _ =>
         if String.prefix "/repo/src/MethodGen.exe" command
         then Some (silent (<[["repo"; "src"; "dotnet"; "AutoNativeMethods.cs"] := File]> f))
         else Some (silent f)).

(** A checkout with the built executable and a generated file of an earlier
    run. *)
Definition stale_fs : filesystem :=
  list_to_map [(["repo"], Dir); (["repo"; "script"], Dir); (["repo"; "src"], Dir);
               (["repo"; "src"; "MethodGen.exe"], File);
               (["repo"; "src"; "dotnet"], Dir);
               (["repo"; "src"; "dotnet"; "AutoNativeMethods.cs"], File)].

Definition stale_world : world :=
  World stale_fs ["repo"; "script"] [] false false false "/repo/src/librhino3dm_native".

(** ** Verified outcomes *)

(** The gate is open in [w] for the artifact at [item]: overwriting is on or
    the artifact is not there. *)
Definition gate_open (item : list string) (w : world) : Prop :=
  overwrite w = true \/ fs_kind (fs w) item = None.

(** [v] and the last line of the log of [w'] are what [setup_did_succeed]
    makes of the artifact at [item] in [w']. *)
Definition verified (item : list string) (v : pyval) (w' : world) : Prop :=
  let present := bool_decide (is_Some (fs_kind (fs w') item)) in
  v = PyBool present /\
  exists l,
    log w' =
    (l ++ [EvPrint (if present
                    then ok_line (xcode_logging w')
                           ("successfully wrote: " +:+ render (Path true item))
                    else error_line (xcode_logging w')
                           ("failed to configure and generate " +:+ render (Path true item)))])%list.

(** A host on which CMake writes a [Makefile] into the working directory and
    every other command does nothing. *)
Definition cmake_host : env :=
  Env "linux" ["repo"; "script"] (Path true ["ndk"]) "msbuild"
      (fun command f d =>
         if String.prefix "cmake" command
         then Some (silent (<[(d ++ ["Makefile"])%list := File]> f))
         else Some (silent f)).

(** The directories a log has created, oldest first. *)
Definition created (l : list event) : list (list string) :=
  flat_map (fun e => match e with EvMkdir q => [q] | _ => [] end) l.

(** ** The Android variants *)




(** ** Further notions *)


(** The command line [build_methodgen] hands to [run_command]. *)
Definition msbuild_command (E : env) : string :=
  (if on_windows E then replace_backslash (check_msbuild E) else "msbuild") +:+ " " +:+
  command_text E (Path true (resolve [] (path_join (path_join (src_folder E) "methodgen")
                                                   "methodgen.csproj"))) +:+
  " /p:Configuration=Release".

(** Where the byte-code cache of the bootstrap module is. *)
Definition bootstrap_pyc (E : env) : list string :=
  resolve [] (path_join (Path true (script_folder E)) "bootstrap.pyc").

(** A computation that never ends in [sys.exit]. *)
Definition no_exit {A} (m : M A) : Prop := forall w, exit_status (m w) = None.

(** A host without [emcmake]: no command can be launched. *)
Definition bare_host : env :=
  Env "linux" ["repo"; "script"] (Path true ["ndk"]) "msbuild" (fun _ _ _ => None).


(** A checkout with a byte-code cache of the bootstrap module. *)
Definition cached_fs : filesystem :=
  list_to_map [(["repo"], Dir); (["repo"; "script"], Dir); (["repo"; "src"], Dir);
               (["repo"; "script"; "bootstrap.pyc"], File)].

Definition cached_world : world :=
  World cached_fs ["repo"; "script"] [] false false false "/repo/src/librhino3dm_native".

(** A script folder without its sibling [src]. *)
Definition orphan_fs : filesystem :=
  list_to_map [(["repo"], Dir); (["repo"; "script"], Dir)].

Definition orphan_world : world :=
  World orphan_fs ["repo"; "script"] [] false false false "/repo/src/librhino3dm_native".

(** A checkout in which the output folder of the Windows build holds an
    earlier configuration and [--overwrite] is given. *)
Definition overwrite_fs : filesystem :=
  list_to_map [(["repo"], Dir); (["repo"; "src"], Dir); (["repo"; "src"; "build"], Dir);
               (["repo"; "src"; "build"; "old"], Dir);
               (["repo"; "src"; "build"; "old"; "CMakeCache.txt"], File);
               (["repo"; "src"; "build"; "older"], File)].

Definition overwrite_world : world :=
  World overwrite_fs ["repo"] [] false false true "/repo/src/librhino3dm_native".

(** [w'] has the file system of [w], and its log has no further launch and
    no further directory. *)
Definition untouched (w w' : world) : Prop :=
  fs w' = fs w /\ spawned (log w') = spawned (log w) /\ created (log w') = created (log w).

(** A computation that leaves the three flags [main] sets as they are,
    however it ends. *)
Definition keeps_flags {A} (m : M A) : Prop :=
  forall w,
    xcode_logging (final (m w)) = xcode_logging w /\
    verbose (final (m w)) = verbose w /\
    overwrite (final (m w)) = overwrite w.

(** * Verification *)

(** ** Path resolution *)

Lemma walk_app d a b : walk d (a ++ b) = walk (walk d a) b.
Proof. apply fold_left_app. Qed.

Lemma normal_removelast l : normal l -> normal (removelast l).
Proof.
  intros H. rewrite removelast_firstn_len. by apply Forall_take.
Qed.

Lemma normal_walk_step d c : normal d -> normal (walk_step d c).
Proof.
  intros H. unfold walk_step.
  destruct (bool_decide (c = EmptyString)) eqn:H1; simpl; [done|].
  destruct (bool_decide (c = ".")) eqn:H2; simpl; [done|].
  destruct (bool_decide (c = "..")) eqn:H3; [by apply normal_removelast|].
  apply bool_decide_eq_false in H1, H2, H3.
  apply Forall_app. split; [done|]. by repeat constructor.
Qed.

Lemma normal_walk l : forall d, normal d -> normal (walk d l).
Proof.
  induction l as [|c l IH]; intros d H; [done|].
  change (walk d (c :: l)) with (walk (walk_step d c) l).
  apply IH. by apply normal_walk_step.
Qed.

Lemma walk_normal l : forall d, normal l -> walk d l = (d ++ l)%list.
Proof.
  induction l as [|c l IH]; intros d H.
  - by rewrite app_nil_r.
  - inversion H as [|? ? (H1 & H2 & H3) H4]; subst.
    change (walk d (c :: l)) with (walk (walk_step d c) l).
    rewrite IH by done. unfold walk_step.
    rewrite !bool_decide_eq_false_2 by done. simpl.
    by rewrite <- app_assoc.
Qed.

Lemma walk_idem l : walk [] (walk [] l) = walk [] l.
Proof. apply walk_normal, normal_walk. constructor. Qed.

(** ** Running the monad *)

Lemma returns_intro {A} (r : outcome A) v : value r = Some v -> r = Ret v (final r).
Proof. destruct r; simpl; congruence. Qed.

Lemma exits_intro {A} (r : outcome A) s : exit_status r = Some s -> r = Exit s (final r).
Proof. destruct r; simpl; congruence. Qed.

Lemma raises_intro {A} (r : outcome A) e : raised r = Some e -> r = Raise e (final r).
Proof. destruct r; simpl; congruence. Qed.

Lemma bind_run {A B} (m : M A) (f : A -> M B) w :
  (m ≫= f) w =
  match m w with
  | Ret a w' => f a w'
  | Exit s w' => Exit s w'
  | Raise e w' => Raise e w'
  end.
Proof. reflexivity. Qed.

Lemma bind_Ret_inv {A B} (m : M A) (f : A -> M B) w b w' :
  (m ≫= f) w = Ret b w' -> exists a w1, m w = Ret a w1 /\ f a w1 = Ret b w'.
Proof. rewrite bind_run. destruct (m w); [eauto | done | done]. Qed.

Lemma bind_Ret {A B} (m : M A) (f : A -> M B) w a w1 :
  m w = Ret a w1 -> (m ≫= f) w = f a w1.
Proof. intros H. by rewrite bind_run, H. Qed.

Lemma bind_Exit {A B} (m : M A) (f : A -> M B) w s w1 :
  m w = Exit s w1 -> (m ≫= f) w = Exit s w1.
Proof. intros H. by rewrite bind_run, H. Qed.

Lemma spawned_app l1 l2 : spawned (l1 ++ l2) = (spawned l1 ++ spawned l2)%list.
Proof. apply flat_map_app. Qed.

Lemma quiet_refl w : quiet w w.
Proof. by repeat split. Qed.

Lemma quiet_trans w1 w2 w3 : quiet w1 w2 -> quiet w2 w3 -> quiet w1 w3.
Proof.
  intros (?&?&?&?&?&?) (?&?&?&?&?&?). repeat split; congruence.
Qed.

Lemma quiet_with_fs f w : quiet w (with_fs f w).
Proof. by repeat split. Qed.

Lemma quiet_add_event e w :
  (forall c d, e <> EvSpawn c d) -> quiet w (add_event e w).
Proof.
  intros H. repeat split; try done. simpl. rewrite spawned_app. simpl.
  destruct e; try by rewrite !app_nil_r. by edestruct H.
Qed.

Lemma quiet_print s w : quiet w (add_event (EvPrint s) w).
Proof. by apply quiet_add_event. Qed.

Section Primitives.

Context (E : env).

Lemma os_path_exists_run p w :
  os_path_exists p w = Ret (bool_decide (is_Some (path_kind w p))) w.
Proof. reflexivity. Qed.

Lemma check_or_create_path_cases p w :
  (is_Some (path_kind w p) /\ check_or_create_path p w = Ret p w) \/
  (path_kind w p = None /\
   check_or_create_path p w = Ret p (made (resolve (cwd w) p) w)) \/
  (path_kind w p = None /\ check_or_create_path p w = Ret empty_path w).
Proof.
  unfold check_or_create_path, try_except_all.
  rewrite bind_run, os_path_exists_run.
  destruct (path_kind w p) as [k|] eqn:Hk.
  - left. split; [eauto|]. rewrite bool_decide_eq_true_2 by eauto. reflexivity.
  - right. rewrite bool_decide_eq_false_2 by (by intros [? ?]). simpl.
    rewrite bind_run. unfold os_mkdir. rewrite bind_run. simpl.
    unfold path_kind in Hk.
    destruct (path_eqb p empty_path); [by right|].
    rewrite Hk.
    destruct (fs_kind (fs w) (removelast (resolve (cwd w) p))) as [[]|];
      [by right | by left | by right].
Qed.

Lemma overwrite_check_run p w :
  overwrite_check p w =
  match path_kind w p with
  | None => Ret (PyBool true) w
  | Some k =>
      if overwrite w then
        match k with
        | File => Ret (PyBool true) (removed (resolve (cwd w) p) w)
        | Dir => Ret (PyBool true) (cleared (resolve (cwd w) p) w)
        end
      else Ret (PyBool false) (warned p w)
  end.
Proof.
  unfold overwrite_check. rewrite bind_run, os_path_exists_run.
  destruct (path_kind w p) as [k|] eqn:Hk; [|reflexivity].
  rewrite bool_decide_eq_true_2 by eauto.
  rewrite bind_run. unfold get at 1.
  destruct (overwrite w) eqn:Ho; simpl; [|reflexivity].
  destruct k.
  - (* a file: removed, and then no directory is left to clear *)
    unfold mbind, M_bind, os_path_isfile, lookup_path, get, os_remove, mret, M_ret.
    simpl. rewrite Hk. simpl.
    unfold os_path_isdir, lookup_path, get, mbind, M_bind, mret, M_ret. simpl.
    unfold path_kind in *. simpl.
    destruct (path_eqb p empty_path); [done|].
    destruct (resolve (cwd w) p) as [|c q] eqn:Hq; [done|].
    simpl in *. rewrite Hk. unfold emit. simpl. rewrite Hq. simpl.
    rewrite lookup_delete_eq. simpl. reflexivity.
  - unfold mbind, M_bind, os_path_isfile, lookup_path, get, mret, M_ret.
    simpl. rewrite Hk. simpl.
    unfold os_path_isdir, lookup_path, get, mbind, M_bind, mret, M_ret. simpl.
    rewrite Hk. simpl. unfold shutil_rmtree, lookup_path, get, mbind, M_bind.
    simpl. rewrite Hk. reflexivity.
Qed.

Lemma setup_did_succeed_run p w :
  setup_did_succeed p w =
  if bool_decide (is_Some (path_kind w p)) then
    Ret true (add_event (EvPrint (ok_line (xcode_logging w)
                ("successfully wrote: " +:+ render p))) w)
  else
    Ret false (reported ("failed to configure and generate " +:+ render p) w).
Proof.
  unfold setup_did_succeed. rewrite bind_run, os_path_exists_run.
  by destruct (bool_decide _).
Qed.

End Primitives.

Section HostPrecondition.

Context (E : env).

Lemma normal_src_folder : normal (comps (src_folder E)).
Proof. apply normal_walk. constructor. Qed.

Lemma normal_build_folder : normal (comps (build_folder E)).
Proof. apply normal_walk. constructor. Qed.

Lemma path_kind_abs w l :
  l <> [] -> path_kind w (Path true l) = fs_kind (fs w) (walk [] l).
Proof.
  intros H. unfold path_kind, path_eqb. simpl. reflexivity.
Qed.

Lemma path_kind_resolved w p name :
  is_abs p = true ->
  path_kind w (Path true (resolve (cwd w) (path_join p name))) =
  fs_kind (fs w) (resolve [] (path_join p name)).
Proof.
  intros Hp. unfold path_kind, path_eqb, resolve. simpl. rewrite Hp. simpl.
  by rewrite walk_idem.
Qed.

(** ** C8: the host precondition *)

(** C8.  On a host that is not [darwin], [setup_macos] and [setup_ios] report
    an error and return [False]; on a host that is neither [win32] nor
    [win64], so does [setup_windows].  The error line is the only thing the
    attempt does: nothing is launched and the file system is as before. *)
Theorem host_precondition_failure w :
  (_platform E <> "darwin" ->
   setup_macos E w =
     Ret (PyBool false)
         (reported "Generating project file for macOS requires that you run this script on macOS" w) /\
   setup_ios E w =
     Ret (PyBool false)
         (reported "Generating project file for iOS requires that you run this script on macOS" w)) /\
  (_platform E <> "win32" -> _platform E <> "win64" ->
   setup_windows E w =
     Ret (PyBool false)
         (reported "Generating project file for Windows requires that you run this script on Windows" w)) /\
  (forall m, spawned (log (reported m w)) = spawned (log w) /\ fs (reported m w) = fs w).
Proof.
  split; [|split].
  - intros H. unfold setup_macos, setup_ios, on_darwin.
    rewrite bool_decide_eq_false_2 by done. by split.
  - intros H1 H2. unfold setup_windows, on_windows.
    rewrite !bool_decide_eq_false_2 by done. done.
  - intros m. split; [|done]. simpl. rewrite spawned_app. simpl. by rewrite app_nil_r.
Qed.

End HostPrecondition.

Lemma host_precondition_failure_witness :
  setup_macos linux_host fresh_world =
    Ret (PyBool false)
        (reported "Generating project file for macOS requires that you run this script on macOS"
                  fresh_world) /\
  setup_windows linux_host fresh_world =
    Ret (PyBool false)
        (reported "Generating project file for Windows requires that you run this script on Windows"
                  fresh_world).
Proof.
  destruct (host_precondition_failure linux_host fresh_world) as (Hmac & Hwin & _).
  split.
  - apply Hmac. discriminate.
  - apply Hwin; discriminate.
Defined.

Section Codegen.

Context (E : env).

Lemma abspath_run p w : abspath p w = Ret (Path true (resolve (cwd w) p)) w.
Proof. reflexivity. Qed.

Lemma print_heading_run plain fancy w :
  print_heading plain fancy w = Ret tt (headed plain fancy w).
Proof. reflexivity. Qed.

Lemma print_error_message_run m w : print_error_message m w = Ret tt (reported m w).
Proof. reflexivity. Qed.

Lemma exe_kind w :
  path_kind w (Path true (resolve (cwd w) (path_join (src_folder E) "MethodGen.exe"))) =
  fs_kind (fs w) (methodgen_exe E).
Proof. by apply path_kind_resolved. Qed.

(** Without the executable [run_methodgen] stops after two lines of output. *)
Lemma run_methodgen_without_exe w :
  fs_kind (fs w) (methodgen_exe E) = None ->
  run_methodgen E w =
    Ret (PyBool false)
        (reported "MethodGen.exe not found."
                  (headed " Running MethodGen..." " Running MethodGen..." w)).
Proof.
  intros H. unfold run_methodgen.
  rewrite bind_run, print_heading_run, bind_run, abspath_run, bind_run, os_path_exists_run.
  rewrite exe_kind. change (fs (headed _ _ w)) with (fs w). rewrite H.
  rewrite bool_decide_eq_false_2 by (by intros [? ?]). reflexivity.
Qed.

(** A failed build leaves a world without the executable. *)
Lemma build_methodgen_failed w w1 :
  build_methodgen E w = Ret (PyBool false) w1 ->
  fs_kind (fs w1) (methodgen_exe E) = None.
Proof.
  unfold build_methodgen. intros H.
  apply bind_Ret_inv in H as (? & w2 & _ & H).
  apply bind_Ret_inv in H as (? & w3 & _ & H).
  apply bind_Ret_inv in H as (? & w4 & _ & H).
  rewrite bind_run, abspath_run, bind_run, os_path_exists_run, exe_kind in H.
  destruct (fs_kind (fs w4) (methodgen_exe E)) as [k|] eqn:Hk.
  - rewrite bool_decide_eq_true_2 in H by eauto. done.
  - rewrite bool_decide_eq_false_2 in H by (by intros [? ?]).
    simpl in H. injection H as <-. exact Hk.
Qed.

(** ** C7: no code generation without the executable *)

(** C7.  When [build_methodgen] fails its check, that is [MethodGen.exe] is
    absent after the build step, the [run_methodgen] that follows reports
    that the executable was not found and returns [False]: it launches no
    process and leaves the file system as it is.  More generally
    [run_methodgen] does this in every world without the executable. *)
Theorem run_methodgen_needs_executable w0 w :
  build_methodgen E w0 = Ret (PyBool false) w ->
  fs_kind (fs w) (methodgen_exe E) = None /\
  run_methodgen E w =
    Ret (PyBool false)
        (reported "MethodGen.exe not found."
                  (headed " Running MethodGen..." " Running MethodGen..." w)) /\
  spawned (log (final (run_methodgen E w))) = spawned (log w) /\
  fs (final (run_methodgen E w)) = fs w.
Proof.
  intros H. apply build_methodgen_failed in H.
  split; [done|]. rewrite (run_methodgen_without_exe w H).
  split; [done|]. split; [|done].
  simpl. rewrite !spawned_app. simpl. by rewrite !app_nil_r.
Qed.

End Codegen.

Lemma run_methodgen_needs_executable_witness :
  let w := final (build_methodgen linux_host fresh_world) in
  build_methodgen linux_host fresh_world = Ret (PyBool false) w /\
  spawned (log (final (run_methodgen linux_host w))) = spawned (log w).
Proof.
  intros w.
  assert (H : build_methodgen linux_host fresh_world = Ret (PyBool false) w)
    by (apply returns_intro; vm_compute; reflexivity).
  split; [exact H|].
  apply (run_methodgen_needs_executable linux_host fresh_world w H).
Defined.

Section Gate.

Context (E : env).

Lemma ret_run {A} (a : A) w : (mret a : M A) w = Ret a w.
Proof. reflexivity. Qed.

Lemma platform_dir_js : platform_dir "js" = mret "javascript".
Proof. reflexivity. Qed.
Lemma platform_dir_ios : platform_dir "ios" = mret "ios".
Proof. reflexivity. Qed.
Lemma platform_dir_macos : platform_dir "macos" = mret "macos".
Proof. reflexivity. Qed.
Lemma platform_dir_android : platform_dir "android" = mret "android".
Proof. reflexivity. Qed.
Lemma platform_dir_windows : platform_dir "windows" = mret "windows".
Proof. reflexivity. Qed.

Lemma quiet_made q w : quiet w (made q w).
Proof.
  unfold made. eapply quiet_trans; [apply quiet_with_fs|].
  by apply quiet_add_event.
Qed.

Lemma check_or_create_path_quiet p w q w1 :
  check_or_create_path p w = Ret q w1 -> quiet w w1.
Proof.
  intros H.
  destruct (check_or_create_path_cases p w) as [[_ H1]|[[_ H1]|[_ H1]]];
    rewrite H1 in H; injection H as <- <-;
    [apply quiet_refl | apply quiet_made | apply quiet_refl].
Qed.

(** The gate closes: the artifact is there and overwriting was not asked for. *)
Lemma overwrite_check_denied item w :
  is_Some (path_kind w item) -> overwrite w = false ->
  overwrite_check item w = Ret (PyBool false) (warned item w).
Proof.
  intros [k Hk] Ho. by rewrite overwrite_check_run, Hk, Ho.
Qed.

Lemma spawned_warned item w : spawned (log (warned item w)) = spawned (log w).
Proof. simpl. rewrite spawned_app. simpl. by rewrite app_nil_r. Qed.

Ltac enter_setup Hhost lem :=
  rewrite Hhost; change (negb true) with false; cbv iota;
  rewrite lem, bind_run, ret_run.

Ltac meet_gate Hc Hk Ho :=
  unfold item_under in *;
  rewrite bind_run, Hc, bind_run, abspath_run, bind_run;
  rewrite (overwrite_check_denied _ _ Hk Ho); reflexivity.

Lemma setup_macos_denied w tp w1 :
  on_darwin E = true ->
  check_or_create_path (path_join (build_folder E) "macos") w = Ret tp w1 ->
  gate_closed (item_under tp "librhino3dm_native.xcodeproj" w1) w1 ->
  setup_macos E w =
    Ret (PyBool false) (warned (item_under tp "librhino3dm_native.xcodeproj" w1) w1).
Proof.
  intros Hd Hc [Hk Ho]. unfold setup_macos.
  enter_setup Hd platform_dir_macos. meet_gate Hc Hk Ho.
Qed.

Lemma setup_ios_denied w tp w1 :
  on_darwin E = true ->
  check_or_create_path (path_join (build_folder E) "ios") w = Ret tp w1 ->
  gate_closed (item_under tp "librhino3dm_native.xcodeproj" w1) w1 ->
  setup_ios E w =
    Ret (PyBool false) (warned (item_under tp "librhino3dm_native.xcodeproj" w1) w1).
Proof.
  intros Hd Hc [Hk Ho]. unfold setup_ios.
  enter_setup Hd platform_dir_ios. meet_gate Hc Hk Ho.
Qed.

Lemma setup_windows_denied w tp w1 :
  on_windows E = true ->
  check_or_create_path (path_join (build_folder E) "windows") w = Ret tp w1 ->
  gate_closed (item_under tp "librhino3dm_native.vcxproj" w1) w1 ->
  setup_windows E w =
    Ret (PyBool false) (warned (item_under tp "librhino3dm_native.vcxproj" w1) w1).
Proof.
  intros Hd Hc [Hk Ho]. unfold setup_windows.
  enter_setup Hd platform_dir_windows. meet_gate Hc Hk Ho.
Qed.

Lemma setup_js_denied w tp w1 :
  check_or_create_path (path_join (build_folder E) "javascript") w = Ret tp w1 ->
  gate_closed (item_under tp "Makefile" w1) w1 ->
  setup_js E w = Ret (PyBool false) (warned (item_under tp "Makefile" w1) w1).
Proof.
  intros Hc [Hk Ho]. unfold setup_js.
  rewrite platform_dir_js, bind_run, ret_run. meet_gate Hc Hk Ho.
Qed.

Lemma android_loop_denied tp tc abi rest w atp w1 :
  check_or_create_path (path_join tp abi) w = Ret atp w1 ->
  gate_closed (item_under atp "Makefile" w1) w1 ->
  android_loop E tp tc (abi :: rest) w =
    Ret (LoopReturn (PyBool false)) (warned (item_under atp "Makefile" w1) w1).
Proof.
  intros Hc [Hk Ho]. simpl android_loop. meet_gate Hc Hk Ho.
Qed.

(** A [return] inside the loop is the result of [setup_android]; the code
    generation after the loop is skipped. *)
Lemma setup_android_loop_return w tp w1 v w2 :
  check_or_create_path (path_join (build_folder E) "android") w = Ret tp w1 ->
  android_loop E tp (android_toolchain_path E) app_abis w1 = Ret (LoopReturn v) w2 ->
  setup_android E w = Ret v w2.
Proof.
  intros Hc Hl. unfold setup_android.
  rewrite platform_dir_android, bind_run, ret_run, bind_run, Hc, bind_run.
  fold (android_toolchain_path E). by rewrite Hl.
Qed.

Lemma refused_after {A} (r : outcome A) v item w0 w :
  quiet w0 w -> r = Ret v (warned item w) -> refused r v item w0 w.
Proof.
  intros (Hq & _) ->. split; [done|]. by rewrite spawned_warned.
Qed.

(** ** C4: the overwrite gate *)

(** C4.  [overwrite_check] answers [True] and does nothing for a path that
    does not exist; for an existing path without [--overwrite] it prints the
    warning, answers [False] and leaves the path alone; with [--overwrite] it
    removes a file, or removes a directory tree and then sleeps two seconds,
    and answers [True].  Every caller that meets the closed gate returns
    [False] at once: the four single-directory setups have launched nothing,
    and [setup_android] leaves its loop, and itself, with [False]. *)
Theorem overwrite_check_gate item w :
  overwrite_check item w =
    match path_kind w item with
    | None => Ret (PyBool true) w
    | Some k =>
        if overwrite w then
          match k with
          | File => Ret (PyBool true) (removed (resolve (cwd w) item) w)
          | Dir => Ret (PyBool true) (cleared (resolve (cwd w) item) w)
          end
        else Ret (PyBool false) (warned item w)
    end /\
  (gate_closed item w ->
   fs (warned item w) = fs w /\
   (forall w0 tp,
      on_darwin E = true ->
      check_or_create_path (path_join (build_folder E) "macos") w0 = Ret tp w ->
      item = item_under tp "librhino3dm_native.xcodeproj" w ->
      refused (setup_macos E w0) (PyBool false) item w0 w) /\
   (forall w0 tp,
      on_darwin E = true ->
      check_or_create_path (path_join (build_folder E) "ios") w0 = Ret tp w ->
      item = item_under tp "librhino3dm_native.xcodeproj" w ->
      refused (setup_ios E w0) (PyBool false) item w0 w) /\
   (forall w0 tp,
      on_windows E = true ->
      check_or_create_path (path_join (build_folder E) "windows") w0 = Ret tp w ->
      item = item_under tp "librhino3dm_native.vcxproj" w ->
      refused (setup_windows E w0) (PyBool false) item w0 w) /\
   (forall w0 tp,
      check_or_create_path (path_join (build_folder E) "javascript") w0 = Ret tp w ->
      item = item_under tp "Makefile" w ->
      refused (setup_js E w0) (PyBool false) item w0 w) /\
   (forall w0 tp tc abi rest atp,
      check_or_create_path (path_join tp abi) w0 = Ret atp w ->
      item = item_under atp "Makefile" w ->
      refused (android_loop E tp tc (abi :: rest) w0) (LoopReturn (PyBool false)) item w0 w) /\
   (forall w0 tp w1,
      check_or_create_path (path_join (build_folder E) "android") w0 = Ret tp w1 ->
      android_loop E tp (android_toolchain_path E) app_abis w1 =
        Ret (LoopReturn (PyBool false)) (warned item w) ->
      setup_android E w0 = Ret (PyBool false) (warned item w))).
Proof.
  split; [apply overwrite_check_run|].
  intros Hg. split; [done|].
  split; [|split; [|split; [|split; [|split]]]].
  - intros w0 tp Hd Hc ->.
    apply refused_after; [by eapply check_or_create_path_quiet | by apply setup_macos_denied].
  - intros w0 tp Hd Hc ->.
    apply refused_after; [by eapply check_or_create_path_quiet | by apply setup_ios_denied].
  - intros w0 tp Hd Hc ->.
    apply refused_after; [by eapply check_or_create_path_quiet | by apply setup_windows_denied].
  - intros w0 tp Hc ->.
    apply refused_after; [by eapply check_or_create_path_quiet | by apply setup_js_denied].
  - intros w0 tp tc abi rest atp Hc ->.
    apply refused_after; [by eapply check_or_create_path_quiet | by apply android_loop_denied].
  - intros w0 tp w1 Hc Hl. by eapply setup_android_loop_return.
Qed.

End Gate.

Lemma overwrite_check_gate_witness :
  gate_closed js_makefile configured_world /\
  refused (setup_js linux_host configured_world) (PyBool false) js_makefile
          configured_world configured_world.
Proof.
  assert (Hg : gate_closed js_makefile configured_world).
  { split; [exists File|]; vm_compute; reflexivity. }
  split; [exact Hg|].
  destruct (overwrite_check_gate linux_host js_makefile configured_world) as [_ H].
  destruct (H Hg) as (_ & _ & _ & _ & Hjs & _).
  apply (Hjs configured_world (Path true ["repo"; "src"; "build"; "javascript"]));
    vm_compute; reflexivity.
Defined.

Section Creation.

Context (E : env).

Lemma os_mkdir_outcome p w :
  path_kind w p = None ->
  os_mkdir p w = Ret tt (made (resolve (cwd w) p) w) \/
  exists e, os_mkdir p w = Raise e w.
Proof.
  intros Hk. unfold os_mkdir. rewrite bind_run. simpl.
  unfold path_kind in Hk.
  destruct (path_eqb p empty_path); [right; by eexists|].
  rewrite Hk.
  destruct (fs_kind (fs w) (removelast (resolve (cwd w) p))) as [[]|];
    [right; by eexists | by left | right; by eexists].
Qed.

Lemma check_or_create_path_mkdir p w :
  path_kind w p = None ->
  check_or_create_path p w =
    match os_mkdir p w with
    | Ret _ w' => Ret p w'
    | Exit _ w' | Raise _ w' => Ret empty_path w'
    end.
Proof.
  intros Hk. unfold check_or_create_path, try_except_all.
  rewrite bind_run, os_path_exists_run, Hk.
  rewrite bool_decide_eq_false_2 by (by intros [? ?]).
  simpl. rewrite bind_run. by destruct (os_mkdir p w).
Qed.

Lemma os_chdir_empty w : os_chdir empty_path w = Raise FileNotFoundError w.
Proof. reflexivity. Qed.

(** ** C10: creating the output directory never raises *)

(** C10.  [check_or_create_path] always returns: the path itself when it
    already exists or when [os.mkdir] succeeds, and the empty string when
    [os.mkdir] raises.  [setup_js] goes on after the empty string: the
    artifact it hands to the gate is [Makefile] joined to the empty string,
    which resolves to [Makefile] in the current working directory; when the
    gate lets it pass, the next statement, [os.chdir('')], raises. *)
Theorem check_or_create_path_total p w :
  (exists q w', check_or_create_path p w = Ret q w' /\ (q = p \/ q = empty_path)) /\
  (is_Some (path_kind w p) -> check_or_create_path p w = Ret p w) /\
  (path_kind w p = None ->
   (forall w', os_mkdir p w = Ret tt w' -> check_or_create_path p w = Ret p w') /\
   (forall e w', os_mkdir p w = Raise e w' -> check_or_create_path p w = Ret empty_path w')) /\
  (forall w0,
     check_or_create_path (path_join (build_folder E) "javascript") w0 = Ret empty_path w ->
     item_under empty_path "Makefile" w = Path true (cwd w ++ ["Makefile"]) /\
     setup_js E w0 =
       match overwrite_check (Path true (cwd w ++ ["Makefile"])) w with
       | Ret ok w2 =>
           if py_truthy ok then Raise FileNotFoundError w2 else Ret (PyBool false) w2
       | Exit s w2 => Exit s w2
       | Raise e w2 => Raise e w2
       end).
Proof.
  split; [|split; [|split]].
  - destruct (check_or_create_path_cases p w) as [[_ H]|[[_ H]|[_ H]]];
      rewrite H; eauto 6.
  - intros Hk. destruct (check_or_create_path_cases p w) as [[_ H]|[[H _]|[H _]]];
      [done | |]; rewrite H in Hk; by destruct Hk.
  - intros Hk. split.
    + intros w' Hm. by rewrite (check_or_create_path_mkdir _ _ Hk), Hm.
    + intros e w' Hm. by rewrite (check_or_create_path_mkdir _ _ Hk), Hm.
  - intros w0 Hc. split; [reflexivity|].
    unfold setup_js.
    rewrite platform_dir_js, bind_run, ret_run, bind_run, Hc, bind_run, abspath_run.
    change (Path true (resolve (cwd w) (path_join empty_path "Makefile")))
      with (Path true (cwd w ++ ["Makefile"])).
    rewrite bind_run.
    destruct (overwrite_check _ w) as [ok w2| |]; [|done|done].
    destruct (py_truthy ok); [|reflexivity].
    change (negb true) with false. cbv iota. by rewrite bind_run, os_chdir_empty.
Qed.

End Creation.

Lemma check_or_create_path_total_witness :
  check_or_create_path (path_join (build_folder linux_host) "javascript") fresh_world =
    Ret empty_path fresh_world /\
  setup_js linux_host fresh_world = Raise FileNotFoundError fresh_world.
Proof.
  assert (Hc : check_or_create_path (path_join (build_folder linux_host) "javascript")
                 fresh_world = Ret empty_path fresh_world) by (vm_compute; reflexivity).
  split; [exact Hc|].
  destruct (check_or_create_path_total linux_host empty_path fresh_world) as (_ & _ & _ & H).
  destruct (H fresh_world Hc) as [_ ->].
  vm_compute. reflexivity.
Defined.

Section Runner.

Context (E : env).

Lemma launch_run command w pr :
  popen E command (fs w) (cwd w) = Some pr ->
  launch E command w = Ret pr (launched command pr w).
Proof.
  intros H. unfold launch. rewrite bind_run. simpl.
  rewrite H. reflexivity.
Qed.





(** ** C2: a stderr line of a running process is fatal *)


End Runner.




Section Main.

Context (E : env).

Lemma main_loop_app pre rest w :
  main_loop E (pre ++ rest) w =
  match main_loop E pre w with
  | Ret _ w1 => main_loop E rest w1
  | Exit s w1 => Exit s w1
  | Raise e w1 => Raise e w1
  end.
Proof.
  revert w. induction pre as [|t pre IH]; intros w; [reflexivity|].
  change (main_loop E ((t :: pre) ++ rest)) with
    ((if negb (bool_decide (t = "all")) && negb (bool_decide (t ∈ valid_platform_args))
      then print_error_message (invalid_platform_message t);; sys_exit 1
      else mret tt);; setup_handler E t;; main_loop E (pre ++ rest)).
  change (main_loop E (t :: pre)) with
    ((if negb (bool_decide (t = "all")) && negb (bool_decide (t ∈ valid_platform_args))
      then print_error_message (invalid_platform_message t);; sys_exit 1
      else mret tt);; setup_handler E t;; main_loop E pre).
  rewrite !bind_run.
  destruct (negb _ && negb _); [reflexivity|].
  rewrite ret_run, !bind_run.
  destruct (setup_handler E t w); [apply IH|done|done].
Qed.

Lemma main_loop_invalid bad rest w :
  bad <> "all" -> bad ∉ valid_platform_args ->
  main_loop E (bad :: rest) w = Exit 1 (reported (invalid_platform_message bad) w).
Proof.
  intros H1 H2. simpl.
  rewrite !bool_decide_eq_false_2 by done. reflexivity.
Qed.

Lemma main_prologue_frame a w w0 :
  main_prologue E a w = Ret tt w0 ->
  fs w0 = fs w /\ exists d, log w0 = (log w ++ [EvChdir d])%list.
Proof.
  unfold main_prologue. rewrite bind_run. simpl.
  unfold os_chdir. rewrite bind_run. simpl.
  destruct (path_kind _ _) as [[]|]; [done| |done].
  rewrite bind_run. simpl. intros H. injection H as <-. eauto.
Qed.

(** ** C6: an unknown platform name *)

(** C6 (amended).  [main] checks each requested name when the loop reaches
    it.  With [bad] the first name outside [js, ios, macos, android,
    windows, all], the names before it are set up first; then the error is
    reported and the script exits with status 1, and no name after [bad] is
    looked at.  When [bad] is the first name of the list, all that has
    happened before the exit is the change to the script's folder: the file
    system is untouched and nothing was launched. *)
Theorem main_rejects_invalid_platform argc a pre bad rest w w0 w1 :
  argc <> 1%nat ->
  a_platform a = Some (pre ++ bad :: rest)%list ->
  bad <> "all" -> bad ∉ valid_platform_args ->
  main_prologue E a w = Ret tt w0 ->
  main_loop E pre w0 = Ret tt w1 ->
  main E argc a w = Exit 1 (reported (invalid_platform_message bad) w1) /\
  (pre = [] ->
   fs (reported (invalid_platform_message bad) w1) = fs w /\
   spawned (log (reported (invalid_platform_message bad) w1)) = spawned (log w) /\
   forall q, EvMkdir q ∈ log (reported (invalid_platform_message bad) w1) -> EvMkdir q ∈ log w).
Proof.
  intros Hargc Ha Hb1 Hb2 Hpro Hpre. split.
  - unfold main. rewrite bool_decide_eq_false_2 by done.
    unfold main_prologue in Hpro. rewrite bind_run in Hpro.
    rewrite bind_run.
    destruct (set_flags _ _ _ w) as [[] wf| |]; [|done|done].
    rewrite bind_run, Hpro, bind_run, Ha, main_loop_app, Hpre.
    by rewrite main_loop_invalid.
  - intros ->. simpl in Hpre. injection Hpre as <-.
    apply main_prologue_frame in Hpro as (Hfs & d & Hlog).
    split; [done|]. simpl. rewrite Hlog. split.
    + rewrite !spawned_app. simpl. by rewrite !app_nil_r.
    + intros q Hq. rewrite !elem_of_app in Hq.
      destruct Hq as [[Hq|Hq]|Hq]; [done| |];
        apply list_elem_of_singleton in Hq; done.
Qed.

End Main.

Lemma main_rejects_invalid_platform_witness :
  let r := main linux_host 3 (Args (Some ["bogus"; "js"]) false false false) fresh_world in
  exit_status r = Some 1 /\ fs (final r) = fs fresh_world /\ spawned (log (final r)) = [].
Proof.
  intros r.
  set (a := Args (Some ["bogus"; "js"]) false false false).
  destruct (main_rejects_invalid_platform linux_host 3 a [] "bogus" ["js"] fresh_world
              (final (main_prologue linux_host a fresh_world))
              (final (main_prologue linux_host a fresh_world)))
    as (Hmain & Hfirst);
    [lia | reflexivity | discriminate |
     | apply returns_intro; vm_compute; reflexivity | reflexivity |].
  - intros H. repeat (apply elem_of_cons in H as [H|H]; [discriminate|]).
    by apply elem_of_nil in H.
  - destruct (Hfirst eq_refl) as (Hfs & Hsp & _).
    unfold r. fold a. rewrite Hmain. split; [reflexivity|]. split; [exact Hfs | exact Hsp].
Defined.

(** C6, counterexample.  With the list [js bogus] the JavaScript setup has
    already created two directories and launched [emcmake] when [bogus] is
    rejected. *)
Lemma main_sets_up_before_rejecting :
  let r := main linux_host 3 (Args (Some ["js"; "bogus"]) false false false) fresh_world in
  exit_status r = Some 1 /\
  created (log (final r)) =
    [["repo"; "src"; "build"]; ["repo"; "src"; "build"; "javascript"]] /\
  map fst (spawned (log (final r))) = [emcmake_command linux_host] /\
  fs (final r) !! ["repo"; "src"; "build"; "javascript"] = Some Dir /\
  fs fresh_world !! ["repo"; "src"; "build"; "javascript"] = None.
Proof.
  intros r. split; [vm_compute; reflexivity|].
  split; [vm_compute; reflexivity|].
  split; [vm_compute; reflexivity|].
  split; vm_compute; reflexivity.
Qed.

Section Dispatcher.

Context (E : env).

Lemma setup_target_run target name setup w :
  platform_full_names !! target = Some name ->
  setup_function E target = Some setup ->
  setup_target E target w =
  match setup (preambled name w) with
  | Ret _ w' => Ret tt w'
  | Exit s w' => Exit s w'
  | Raise e w' => Raise e w'
  end.
Proof.
  intros Hn Hs. unfold setup_target. rewrite Hn, Hs.
  rewrite bind_run. change (print_platform_preamble name w) with (Ret tt (preambled name w)).
  cbv beta iota. rewrite bind_run. by destruct (setup (preambled name w)).
Qed.

Lemma setup_target_Ret target name setup w w' :
  platform_full_names !! target = Some name ->
  setup_function E target = Some setup ->
  setup_target E target w = Ret tt w' <-> exists v, setup (preambled name w) = Ret v w'.
Proof.
  intros Hn Hs. rewrite (setup_target_run _ _ _ _ Hn Hs).
  destruct (setup (preambled name w)) as [v w2| |]; split.
  - intros H. injection H as <-. eauto.
  - by intros [? [= _ <-]].
  - done.
  - by intros [? ?].
  - done.
  - by intros [? ?].
Qed.

(** ** C5: dispatching ["all"] *)

(** C5 (amended).  [setup_handler("all")], once the build folder is there,
    prints the preamble of and calls [setup_js], [setup_ios], [setup_macos],
    [setup_android], [setup_windows], in this order and each once, every one
    starting in the world its predecessor left.  Whatever a setup returns,
    [True], [False] or [None], is dropped and the next one runs; the
    handler itself returns [None].  So a run in which all five return is a
    run of the handler, and the handler returns only through such a run. *)
Theorem setup_handler_all w w' :
  ((exists w0 v1 w1 v2 w2 v3 w3 v4 w4 v5,
      ensure_build_folder E w = Ret tt w0 /\
      setup_js E (preambled "JavaScript" w0) = Ret v1 w1 /\
      setup_ios E (preambled "iOS" w1) = Ret v2 w2 /\
      setup_macos E (preambled "macOS" w2) = Ret v3 w3 /\
      setup_android E (preambled "Android" w3) = Ret v4 w4 /\
      setup_windows E (preambled "Windows" w4) = Ret v5 w') <->
   setup_handler E "all" w = Ret PyNone w') /\
  (forall v, setup_handler E "all" w = Ret v w' -> v = PyNone).
Proof.
  assert (Hjs := fun w w' => setup_target_Ret "js" "JavaScript" (setup_js E) w w' eq_refl eq_refl).
  assert (Hios := fun w w' => setup_target_Ret "ios" "iOS" (setup_ios E) w w' eq_refl eq_refl).
  assert (Hmac := fun w w' => setup_target_Ret "macos" "macOS" (setup_macos E) w w' eq_refl eq_refl).
  assert (Hand := fun w w' =>
            setup_target_Ret "android" "Android" (setup_android E) w w' eq_refl eq_refl).
  assert (Hwin := fun w w' =>
            setup_target_Ret "windows" "Windows" (setup_windows E) w w' eq_refl eq_refl).
  split; [split|].
  - intros (w0 & v1 & w1 & v2 & w2 & v3 & w3 & v4 & w4 & v5 & Hb & H1 & H2 & H3 & H4 & H5).
    unfold setup_handler. rewrite bind_run, Hb.
    rewrite bool_decide_eq_true_2 by done.
    rewrite bind_run. unfold valid_platform_args. simpl setup_targets.
    rewrite bind_run, (proj2 (Hjs _ _) (ex_intro _ _ H1)).
    rewrite bind_run, (proj2 (Hios _ _) (ex_intro _ _ H2)).
    rewrite bind_run, (proj2 (Hmac _ _) (ex_intro _ _ H3)).
    rewrite bind_run, (proj2 (Hand _ _) (ex_intro _ _ H4)).
    rewrite bind_run, (proj2 (Hwin _ _) (ex_intro _ _ H5)).
    reflexivity.
  - intros H. unfold setup_handler in H.
    apply bind_Ret_inv in H as ([] & w0 & Hb & H).
    rewrite bool_decide_eq_true_2 in H by done.
    apply bind_Ret_inv in H as ([] & w5 & H & Hret).
    injection Hret as <-.
    unfold valid_platform_args in H. simpl in H.
    apply bind_Ret_inv in H as ([] & w1 & H1 & H).
    apply bind_Ret_inv in H as ([] & w2 & H2 & H).
    apply bind_Ret_inv in H as ([] & w3 & H3 & H).
    apply bind_Ret_inv in H as ([] & w4 & H4 & H).
    apply bind_Ret_inv in H as ([] & w6 & H5 & H).
    injection H as <-.
    apply Hjs in H1 as [v1 H1]. apply Hios in H2 as [v2 H2].
    apply Hmac in H3 as [v3 H3]. apply Hand in H4 as [v4 H4].
    apply Hwin in H5 as [v5 H5].
    exists w0, v1, w1, v2, w2, v3, w3, v4, w4, v5. by repeat split.
  - intros v H. unfold setup_handler in H.
    apply bind_Ret_inv in H as (? & ? & _ & H).
    apply bind_Ret_inv in H as (? & ? & _ & H).
    by injection H as <- _.
Qed.

End Dispatcher.

Lemma setup_handler_all_witness :
  value (setup_handler linux_host "all" fresh_world) = Some PyNone.
Proof.
  assert (H : exists w', setup_handler linux_host "all" fresh_world = Ret PyNone w').
  { eexists. apply (proj1 (setup_handler_all linux_host fresh_world _)).
    eexists _, _, _, _, _, _, _, _, _, _.
    split; [apply returns_intro; vm_compute; reflexivity|].
    split; [apply returns_intro; vm_compute; reflexivity|].
    split; [apply returns_intro; vm_compute; reflexivity|].
    split; [apply returns_intro; vm_compute; reflexivity|].
    split; apply returns_intro; vm_compute; reflexivity. }
  destruct H as [w' ->]. reflexivity.
Defined.

(** C5, counterexample.  The handler returns [None], not a mapping. *)
Lemma setup_handler_returns_no_mapping :
  exists v,
    value (setup_handler linux_host "all" fresh_world) = Some v /\ ~ is_outcome_mapping v.
Proof.
  exists PyNone. split; [vm_compute; reflexivity|].
  by intros (items & H & _).
Qed.

Section RunnerFrame.

Context (E : env).

(** The loop of [run_command] only prints. *)
Lemma run_command_loop_quiet suppress alive : forall out err w,
  let w' := final (run_command_loop suppress alive out err w) in
  fs w' = fs w /\ quiet w w'.
Proof.
  induction alive as [|alive IH]; intros out err w; simpl.
  - split; [done | apply quiet_refl].
  - destruct (readline out) as [line out'].
    destruct (truthy line).
    + rewrite bind_run. simpl.
      specialize (IH out' err (add_event (EvPrint (strip line)) w)).
      destruct IH as [IH1 IH2]. split; [done|].
      eapply quiet_trans; [apply quiet_print | exact IH2].
    + destruct suppress; simpl.
      * apply IH.
      * destruct (readline err) as [error err'].
        destruct (truthy error); [|apply IH].
        simpl. split; [done | apply quiet_print].
Qed.

(** What [run_command] leaves, however it ends. *)
Lemma run_command_final command suppress w :
  let w' := final (run_command E command suppress w) in
  spawned (log w') = (spawned (log w) ++ [(command, cwd w)])%list /\
  same_context w w' /\
  match popen E command (fs w) (cwd w) with
  | Some pr => fs w' = p_fs pr
  | None => run_command E command suppress w =
              Raise FileNotFoundError (add_event (EvSpawn command (cwd w)) w)
  end.
Proof.
  unfold run_command. rewrite bind_run. unfold launch. rewrite !bind_run. simpl.
  destruct (popen E command (fs w) (cwd w)) as [pr|]; simpl.
  - rewrite !bind_run.
    pose proof (run_command_loop_quiet suppress (p_alive pr) (p_stdout pr)
                  (if suppress then [] else p_stderr pr)
                  (with_fs (p_fs pr) (add_event (EvSpawn command (cwd w)) w)))
      as [Hfs (Hs & Hc & Hx & Hv & Ho & Hn)].
    destruct (run_command_loop _ _ _ _ _) as [[] w2|s w2|e w2]; simpl in *;
      (split; [rewrite Hs, spawned_app; done|]); (split; [by repeat split|done]).
  - split; [by rewrite spawned_app|]. split; [by repeat split|done].
Qed.

End RunnerFrame.

Section Stale.

Context (E : env).

Lemma anm_path w :
  Path true (resolve (cwd w)
    (path_join (Path true (resolve (cwd w) (path_join (src_folder E) "dotnet")))
               "AutoNativeMethods.cs")) =
  Path true (auto_native_methods E).
Proof.
  unfold auto_native_methods, resolve, path_join. simpl.
  f_equal. rewrite (walk_app [] (walk [] _)), walk_idem.
  by rewrite (walk_app [] (_ ++ _)).
Qed.

Lemma resolve_anm d : resolve d (Path true (auto_native_methods E)) = auto_native_methods E.
Proof. unfold resolve. simpl. apply walk_idem. Qed.

Lemma anm_kind w :
  path_kind w (Path true (auto_native_methods E)) = fs_kind (fs w) (auto_native_methods E).
Proof. unfold path_kind. simpl. by rewrite resolve_anm. Qed.

Lemma anm_nonempty : auto_native_methods E <> [].
Proof.
  unfold auto_native_methods, resolve, path_join. simpl. rewrite walk_app. simpl.
  unfold walk_step. simpl. by destruct (walk _ _).
Qed.

(** [run_methodgen] up to the launch. *)
Lemma run_methodgen_run w :
  is_Some (fs_kind (fs w) (methodgen_exe E)) ->
  run_methodgen E w =
  match fs_kind (fs w) (auto_native_methods E) with
  | Some Dir =>
      Raise IsADirectoryError (headed " Running MethodGen..." " Running MethodGen..." w)
  | _ =>
      codegen_run E (codegen_command E w) (Path true (auto_native_methods E))
                  (codegen_launch_world E w)
  end.
Proof.
  intros Hexe. unfold run_methodgen.
  rewrite bind_run, print_heading_run, bind_run, abspath_run, bind_run,
    os_path_exists_run, exe_kind.
  change (fs (headed _ _ w)) with (fs w).
  rewrite bool_decide_eq_true_2 by done. change (negb true) with false. cbv iota.
  rewrite bind_run. unfold get at 1. cbv beta iota.
  rewrite bind_run, abspath_run, bind_run, abspath_run, anm_path.
  rewrite bind_run, os_path_exists_run, anm_kind.
  change (fs (headed _ _ w)) with (fs w).
  unfold codegen_launch_world.
  destruct (fs_kind (fs w) (auto_native_methods E)) as [[]|] eqn:Hk.
  - rewrite bool_decide_eq_true_2 by eauto. cbv iota.
    rewrite bind_run. unfold os_remove. rewrite bind_run.
    unfold lookup_path, get at 1. rewrite anm_kind.
    change (fs (headed _ _ w)) with (fs w). rewrite Hk.
    rewrite bind_run. unfold get at 1. cbv beta iota. rewrite resolve_anm.
    reflexivity.
  - rewrite bool_decide_eq_true_2 by eauto. cbv iota.
    rewrite bind_run. unfold os_remove. rewrite bind_run.
    unfold lookup_path, get at 1. rewrite anm_kind.
    change (fs (headed _ _ w)) with (fs w). rewrite Hk.
    reflexivity.
  - rewrite bool_decide_eq_false_2 by (by intros [? ?]). cbv iota.
    reflexivity.
Qed.

End Stale.

Section Regenerate.

Context (E : env).

Lemma spawned_snoc l e :
  (forall c d, e <> EvSpawn c d) -> spawned (l ++ [e]) = spawned l.
Proof.
  intros H. rewrite spawned_app. simpl.
  destruct e; try by rewrite !app_nil_r. by edestruct H.
Qed.

Lemma codegen_launch_world_frame w :
  spawned (log (codegen_launch_world E w)) = spawned (log w) /\
  same_context w (codegen_launch_world E w).
Proof.
  unfold codegen_launch_world.
  destruct (fs_kind (fs w) (auto_native_methods E)) as [[]|]; simpl;
    rewrite ?spawned_snoc by done; by repeat split.
Qed.

(** ** C9: no stale generated file *)

(** C9.  In a world with the executable, [run_methodgen] removes the
    generated file [AutoNativeMethods.cs] of an earlier run before it
    launches MethodGen: at the launch the file does not exist, and the
    removal is in the log right before it.  The run then counts as a
    success exactly when the file system the process leaves has the file,
    so a success is never due to a file that was there before.  (When the
    path names a directory, [os.remove] raises and nothing is launched.) *)
Theorem run_methodgen_regenerates w :
  is_Some (fs_kind (fs w) (methodgen_exe E)) ->
  let item := auto_native_methods E in
  let w1 := codegen_launch_world E w in
  let command := codegen_command E w in
  match fs_kind (fs w) item with
  | Some Dir =>
      run_methodgen E w =
        Raise IsADirectoryError (headed " Running MethodGen..." " Running MethodGen..." w)
  | stale =>
      fs_kind (fs w1) item = None /\
      (is_Some stale ->
       log w1 = (log (headed " Running MethodGen..." " Running MethodGen..." w)
                 ++ [EvRemove item])%list) /\
      spawned (log (final (run_methodgen E w))) =
        (spawned (log w) ++ [(command, cwd w)])%list /\
      (forall v w',
         run_methodgen E w = Ret v w' ->
         exists pr,
           popen E command (fs w1) (cwd w1) = Some pr /\
           fs w' = p_fs pr /\
           v = if bool_decide (is_Some (fs_kind (p_fs pr) item)) then PyNone else PyBool false)
  end.
Proof.
  intros Hexe item w1 command. subst item.
  rewrite (run_methodgen_run E w Hexe).
  assert (Habsent : fs_kind (fs w) (auto_native_methods E) <> Some Dir -> fs_kind (fs w1) (auto_native_methods E) = None).
  { intros Hk. unfold w1, codegen_launch_world.
    destruct (fs_kind (fs w) (auto_native_methods E)) as [[]|] eqn:Hk'; [|done|done].
    simpl. pose proof (anm_nonempty E) as Hne. 
    destruct (auto_native_methods E); [done|]. simpl. apply lookup_delete_eq. }
  assert (Hrest :
    spawned (log (final (codegen_run E command (Path true (auto_native_methods E)) w1))) =
      (spawned (log w) ++ [(command, cwd w)])%list /\
    (forall v w',
       codegen_run E command (Path true (auto_native_methods E)) w1 = Ret v w' ->
       exists pr,
         popen E command (fs w1) (cwd w1) = Some pr /\
         fs w' = p_fs pr /\
         v = if bool_decide (is_Some (fs_kind (p_fs pr) (auto_native_methods E))) then PyNone else PyBool false)).
  { destruct (codegen_launch_world_frame w) as [Hs1 (Hc1 & _)]. fold w1 in Hs1, Hc1.
    pose proof (run_command_final E command false w1) as (Hs & _ & Hp).
    rewrite Hs1, Hc1 in Hs.
    unfold codegen_run. rewrite bind_run.
    destruct (run_command E command false w1) as [rc w2|s w2|e w2] eqn:Hrun;
      simpl in Hs; [|by split|by split].
    rewrite bind_run, os_path_exists_run, (anm_kind E).
    destruct (popen E command (fs w1) (cwd w1)) as [pr|]; [|done].
    simpl in Hp. rewrite Hp.
    destruct (bool_decide (is_Some (fs_kind (p_fs pr) (auto_native_methods E)))) eqn:Hb; simpl.
    - rewrite spawned_snoc by done. split; [done|].
      intros v w' [= <- <-]. exists pr. by rewrite Hb.
    - rewrite spawned_snoc by done. split; [done|].
      intros v w' [= <- <-]. exists pr. by rewrite Hb. }
  destruct Hrest as [Hsp Hret].
  destruct (fs_kind (fs w) (auto_native_methods E)) as [[]|] eqn:Hk; [|done|].
  - split; [by apply Habsent|]. split; [|by split].
    intros _. unfold w1, codegen_launch_world. by rewrite Hk.
  - split; [by apply Habsent|]. split; [|by split].
    by intros [? ?].
Qed.

End Regenerate.

Lemma run_methodgen_regenerates_witness :
  let item := auto_native_methods codegen_host in
  let w1 := codegen_launch_world codegen_host stale_world in
  let r := run_methodgen codegen_host stale_world in
  fs_kind (fs stale_world) item = Some File /\
  fs_kind (fs w1) item = None /\
  value r = Some PyNone /\
  exists pr,
    popen codegen_host (codegen_command codegen_host stale_world) (fs w1) (cwd w1) = Some pr /\
    fs (final r) = p_fs pr.
Proof.
  intros item w1 r.
  assert (Hexe : is_Some (fs_kind (fs stale_world) (methodgen_exe codegen_host)))
    by (exists File; vm_compute; reflexivity).
  pose proof (run_methodgen_regenerates codegen_host stale_world Hexe) as H.
  assert (Hk : fs_kind (fs stale_world) (auto_native_methods codegen_host) = Some File)
    by (vm_compute; reflexivity).
  cbv zeta in H. rewrite Hk in H. destruct H as (Habsent & _ & _ & Hret).
  split; [exact Hk|]. split; [exact Habsent|].
  assert (Hv : value r = Some PyNone) by (vm_compute; reflexivity).
  split; [exact Hv|].
  destruct (Hret _ _ (returns_intro _ _ Hv)) as (pr & Hp & Hfs & _).
  exists pr. by split.
Defined.

Section Verified.

Context (E : env).

Lemma normal_artifact dir file :
  normal [dir; file] -> normal (artifact E dir file).
Proof.
  intros H. apply Forall_app. split; [apply normal_build_folder | exact H].
Qed.

Lemma resolve_output_dir d dir :
  normal [dir] ->
  resolve d (path_join (build_folder E) dir) = (comps (build_folder E) ++ [dir])%list.
Proof.
  intros H. unfold resolve. simpl. rewrite walk_normal; [done|].
  apply Forall_app. split; [apply normal_build_folder | exact H].
Qed.

Lemma item_under_artifact w dir file :
  normal [dir; file] ->
  item_under (path_join (build_folder E) dir) file w = Path true (artifact E dir file).
Proof.
  intros H. unfold item_under, resolve, artifact. simpl. f_equal.
  rewrite <- app_assoc. simpl. rewrite walk_normal; [done|].
  by apply normal_artifact.
Qed.

Lemma artifact_kind w dir file :
  normal [dir; file] ->
  path_kind w (Path true (artifact E dir file)) = fs_kind (fs w) (artifact E dir file).
Proof.
  intros H. unfold path_kind, resolve. simpl.
  rewrite walk_normal by (by apply normal_artifact).
  unfold artifact. by destruct (comps (build_folder E)).
Qed.

Lemma resolve_artifact d dir file :
  normal [dir; file] ->
  resolve d (Path true (artifact E dir file)) = artifact E dir file.
Proof.
  intros H. unfold resolve. simpl. rewrite walk_normal; [done|]. by apply normal_artifact.
Qed.

(** With the build folder in place the output directory is there after
    [check_or_create_path], and the artifact is as it was. *)
Lemma output_dir_ready w dir file :
  normal [dir; file] ->
  fs_kind (fs w) (comps (build_folder E)) = Some Dir ->
  exists w1,
    check_or_create_path (path_join (build_folder E) dir) w =
      Ret (path_join (build_folder E) dir) w1 /\
    overwrite w1 = overwrite w /\
    fs_kind (fs w1) (artifact E dir file) = fs_kind (fs w) (artifact E dir file).
Proof.
  intros Hn Hb.
  assert (Hd : normal [dir]) by (inversion Hn; subst; by apply Forall_singleton).
  set (p := path_join (build_folder E) dir).
  destruct (path_kind w p) as [k|] eqn:Hk.
  - exists w. destruct (check_or_create_path_cases p w) as [[_ H]|[[H _]|[H _]]];
      [done | congruence | congruence].
  - exists (made (resolve (cwd w) p) w).
    rewrite (check_or_create_path_mkdir _ _ Hk).
    unfold os_mkdir. rewrite bind_run. simpl.
    unfold path_kind in Hk. simpl in Hk. simpl.
    fold p. fold p in Hk. rewrite Hk.
    unfold p. rewrite (resolve_output_dir _ _ Hd).
    rewrite removelast_last, Hb. split; [reflexivity|]. split; [done|].
    simpl. unfold artifact.
    assert (Hne : (comps (build_folder E) ++ [dir])%list <>
                  (comps (build_folder E) ++ [dir; file])%list).
    { intros Heq. apply (f_equal length) in Heq. rewrite !length_app in Heq. simpl in Heq. lia. }
    destruct (comps (build_folder E) ++ [dir; file])%list eqn:Ha.
    + by destruct (comps (build_folder E)).
    + simpl. by rewrite lookup_insert_ne.
Qed.

(** The open gate lets the setup pass. *)
Lemma overwrite_check_open w dir file :
  normal [dir; file] ->
  gate_open (artifact E dir file) w ->
  exists w2, overwrite_check (Path true (artifact E dir file)) w = Ret (PyBool true) w2.
Proof.
  intros Hn Hg. rewrite overwrite_check_run, (artifact_kind _ _ _ Hn).
  destruct (fs_kind (fs w) (artifact E dir file)) as [k|] eqn:Hk; [|eauto].
  destruct Hg as [->|Hg]; [|congruence].
  destruct k; eauto.
Qed.

(** Whatever runs before it, the last step decides. *)
Lemma verified_last {A} (m : M A) dir file w v w' :
  normal [dir; file] ->
  (m;; r ← setup_did_succeed (Path true (artifact E dir file)); mret (PyBool r)) w = Ret v w' ->
  verified (artifact E dir file) v w'.
Proof.
  intros Hn H. apply bind_Ret_inv in H as (? & w5 & _ & H).
  rewrite bind_run, setup_did_succeed_run, (artifact_kind _ _ _ Hn) in H.
  unfold verified.
  destruct (bool_decide (is_Some (fs_kind (fs w5) (artifact E dir file)))) eqn:Hb;
    simpl in H; injection H as <- <-; simpl; rewrite Hb; eauto.
Qed.

End Verified.

Section Outcome.

Context (E : env).

Ltac pass_gate H Hn Hb Hg dir file :=
  let w1 := fresh "w1" in
  let w2 := fresh "w2" in
  let Hc := fresh "Hc" in
  let Ho := fresh "Ho" in
  let Hk := fresh "Hk" in
  let Hpass := fresh "Hpass" in
  let Hc2 := fresh "Hc2" in
  match type of Hb with
  | fs_kind (fs ?w) _ = _ =>
      destruct (output_dir_ready E w dir file Hn Hb) as (w1 & Hc & Ho & Hk);
      rewrite bind_run, Hc, bind_run, abspath_run in H;
      change (Path true (resolve (cwd w1) (path_join (path_join (build_folder E) dir) file)))
        with (item_under (path_join (build_folder E) dir) file w1) in H;
      rewrite (item_under_artifact E w1 dir file Hn) in H;
      assert (Hpass : gate_open (artifact E dir file) w1)
        by (unfold gate_open in *; rewrite Ho, Hk; exact Hg);
      destruct (overwrite_check_open E w1 dir file Hn Hpass) as [w2 Hc2];
      rewrite bind_run, Hc2 in H;
      change (negb (py_truthy (PyBool true))) with false in H; cbv iota in H
  end.

Ltac solve_normal :=
  unfold normal; repeat (apply Forall_cons; split; [repeat split; discriminate|]); constructor.

Lemma setup_macos_verified w v w' :
  on_darwin E = true ->
  fs_kind (fs w) (comps (build_folder E)) = Some Dir ->
  gate_open (artifact E "macos" "librhino3dm_native.xcodeproj") w ->
  setup_macos E w = Ret v w' ->
  verified (artifact E "macos" "librhino3dm_native.xcodeproj") v w'.
Proof.
  intros Hd Hb Hg H.
  assert (Hn : normal ["macos"; "librhino3dm_native.xcodeproj"]) by solve_normal.
  unfold setup_macos in H. rewrite Hd in H. change (negb true) with false in H. cbv iota in H.
  rewrite platform_dir_macos, bind_run, ret_run in H.
  pass_gate H Hn Hb Hg "macos" "librhino3dm_native.xcodeproj".
  do 6 (apply bind_Ret_inv in H as (? & ? & _ & H)).
  by eapply verified_last.
Qed.

Lemma setup_ios_verified w v w' :
  on_darwin E = true ->
  fs_kind (fs w) (comps (build_folder E)) = Some Dir ->
  gate_open (artifact E "ios" "librhino3dm_native.xcodeproj") w ->
  setup_ios E w = Ret v w' ->
  verified (artifact E "ios" "librhino3dm_native.xcodeproj") v w'.
Proof.
  intros Hd Hb Hg H.
  assert (Hn : normal ["ios"; "librhino3dm_native.xcodeproj"]) by solve_normal.
  unfold setup_ios in H. rewrite Hd in H. change (negb true) with false in H. cbv iota in H.
  rewrite platform_dir_ios, bind_run, ret_run in H.
  pass_gate H Hn Hb Hg "ios" "librhino3dm_native.xcodeproj".
  do 6 (apply bind_Ret_inv in H as (? & ? & _ & H)).
  by eapply verified_last.
Qed.

Lemma setup_windows_verified w v w' :
  on_windows E = true ->
  fs_kind (fs w) (comps (build_folder E)) = Some Dir ->
  gate_open (artifact E "windows" "librhino3dm_native.vcxproj") w ->
  setup_windows E w = Ret v w' ->
  verified (artifact E "windows" "librhino3dm_native.vcxproj") v w'.
Proof.
  intros Hd Hb Hg H.
  assert (Hn : normal ["windows"; "librhino3dm_native.vcxproj"]) by solve_normal.
  unfold setup_windows in H. rewrite Hd in H. change (negb true) with false in H. cbv iota in H.
  rewrite platform_dir_windows, bind_run, ret_run in H.
  pass_gate H Hn Hb Hg "windows" "librhino3dm_native.vcxproj".
  do 8 (apply bind_Ret_inv in H as (? & ? & _ & H)).
  by eapply verified_last.
Qed.

Lemma setup_js_verified w v w' :
  (forall f d, popen E (emcmake_command E) f d <> None) ->
  fs_kind (fs w) (comps (build_folder E)) = Some Dir ->
  gate_open (artifact E "javascript" "Makefile") w ->
  setup_js E w = Ret v w' ->
  verified (artifact E "javascript" "Makefile") v w'.
Proof.
  intros Hl Hb Hg H.
  assert (Hn : normal ["javascript"; "Makefile"]) by solve_normal.
  unfold setup_js in H.
  rewrite platform_dir_js, bind_run, ret_run in H.
  pass_gate H Hn Hb Hg "javascript" "Makefile".
  apply bind_Ret_inv in H as (? & w3 & _ & H).
  apply bind_Ret_inv in H as (p & w4 & Hp & H).
  assert (Hsome : exists pr, p = Some pr).
  { destruct (popen E (emcmake_command E) (fs w3) (cwd w3)) as [pr|] eqn:Hpr;
      [|by apply Hl in Hpr].
    unfold try_except_OSError in Hp.
    rewrite bind_run, (launch_run E _ _ _ Hpr), ret_run in Hp.
    injection Hp as <- _. eauto. }
  destruct Hsome as [pr ->].
  apply bind_Ret_inv in H as (? & ? & _ & H).
  by eapply verified_last.
Qed.

(** ** C3: what a setup returns *)

(** C3 (amended).  For [setup_macos], [setup_ios], [setup_windows] and
    [setup_js], started with the build folder in place: an attempt that gets
    past the host precondition and the overwrite gate (overwriting is on, or
    the artifact is not there yet), for [setup_js] with an [emcmake] that
    launches, and that returns, returns what the last look at the file
    system says.  It returns [True] after the line "successfully wrote" when
    the artifact exists at the end and [False] after the line "failed to
    configure and generate" naming the artifact when it does not, whatever
    the exit statuses of the processes were. *)
Theorem setup_returns_verification w v w' :
  fs_kind (fs w) (comps (build_folder E)) = Some Dir ->
  (on_darwin E = true ->
   gate_open (artifact E "macos" "librhino3dm_native.xcodeproj") w ->
   setup_macos E w = Ret v w' ->
   verified (artifact E "macos" "librhino3dm_native.xcodeproj") v w') /\
  (on_darwin E = true ->
   gate_open (artifact E "ios" "librhino3dm_native.xcodeproj") w ->
   setup_ios E w = Ret v w' ->
   verified (artifact E "ios" "librhino3dm_native.xcodeproj") v w') /\
  (on_windows E = true ->
   gate_open (artifact E "windows" "librhino3dm_native.vcxproj") w ->
   setup_windows E w = Ret v w' ->
   verified (artifact E "windows" "librhino3dm_native.vcxproj") v w') /\
  ((forall f d, popen E (emcmake_command E) f d <> None) ->
   gate_open (artifact E "javascript" "Makefile") w ->
   setup_js E w = Ret v w' ->
   verified (artifact E "javascript" "Makefile") v w').
Proof.
  intros Hb. split; [|split; [|split]].
  - intros Hd Hg H. by apply (setup_macos_verified w).
  - intros Hd Hg H. by apply (setup_ios_verified w).
  - intros Hd Hg H. by apply (setup_windows_verified w).
  - intros Hl Hg H. by apply (setup_js_verified w).
Qed.

End Outcome.

Lemma setup_returns_verification_witness :
  let r := setup_js linux_host built_world in
  value r = Some (PyBool false) /\
  verified (artifact linux_host "javascript" "Makefile") (PyBool false) (final r).
Proof.
  intros r.
  assert (Hv : value r = Some (PyBool false)) by (vm_compute; reflexivity).
  split; [exact Hv|].
  destruct (setup_returns_verification linux_host built_world (PyBool false) (final r))
    as (_ & _ & _ & Hjs); [vm_compute; reflexivity|].
  apply Hjs.
  - intros f d. discriminate.
  - right. vm_compute. reflexivity.
  - by apply returns_intro.
Defined.

(** C3, counterexample.  Run again without [--overwrite], [setup_js] returns
    [False] although its artifact exists when it returns; and [setup_android]
    returns [None] with the artifacts of all four variants in place. *)
Lemma setup_value_is_not_artifact_existence :
  let r := setup_js linux_host configured_world in
  let r' := setup_android cmake_host built_world in
  value r = Some (PyBool false) /\
  fs_kind (fs (final r)) (artifact linux_host "javascript" "Makefile") = Some File /\
  value r' = Some PyNone /\
  map (fun abi => fs_kind (fs (final r'))
                    (comps (build_folder cmake_host) ++ ["android"; abi; "Makefile"]))
      app_abis = [Some File; Some File; Some File; Some File].
Proof.
  intros r r'.
  split; [vm_compute; reflexivity|]. split; [vm_compute; reflexivity|].
  split; vm_compute; reflexivity.
Qed.

Section Android.

Context (E : env).






End Android.

Section Variants.

Context (E : env).


End Variants.

Section VariantsTrace.

Context (E : env).


(** ** C1: the Android variants *)


End VariantsTrace.



(** * Further properties *)

Section RunnerReturns.

Context (E : env).

Lemma echoed_app l1 l2 w : echoed (l1 ++ l2) w = echoed l2 (echoed l1 w).
Proof. apply fold_left_app. Qed.




End RunnerReturns.



Section BuildTool.

Context (E : env).

(** X3.  [build_methodgen], when it returns, has launched msbuild once, in
    the directory it was called in, and returns [True] exactly when
    [MethodGen.exe] exists afterwards; the exit status of msbuild plays no
    part. *)
Theorem build_methodgen_returns w v w' :
  build_methodgen E w = Ret v w' ->
  v = PyBool (bool_decide (is_Some (fs_kind (fs w') (methodgen_exe E)))) /\
  spawned (log w') = (spawned (log w) ++ [(msbuild_command E, cwd w)])%list.
Proof.
  unfold build_methodgen. intros H.
  rewrite bind_run, print_heading_run, bind_run, abspath_run in H.
  apply bind_Ret_inv in H as (rc & w3 & Hrun & H).
  match type of Hrun with run_command _ ?c _ ?w0 = _ =>
    pose proof (run_command_final E c false w0) as (Hs & _ & _) end.
  rewrite Hrun in Hs. simpl final in Hs.
  rewrite bind_run, abspath_run, bind_run, os_path_exists_run, (exe_kind E) in H.
  assert (Hsp : spawned (log w3) = (spawned (log w) ++ [(msbuild_command E, cwd w)])%list).
  { rewrite Hs. simpl. rewrite spawned_snoc by done. reflexivity. }
  destruct (bool_decide (is_Some (fs_kind (fs w3) (methodgen_exe E)))) eqn:Hb;
    simpl in H; injection H as <- <-; simpl; rewrite Hb, spawned_snoc by done; by split.
Qed.

Lemma bootstrap_pyc_nonempty : bootstrap_pyc E <> [].
Proof.
  unfold bootstrap_pyc, resolve, path_join. simpl. rewrite walk_app. simpl.
  unfold walk_step. simpl. by destruct (walk _ _).
Qed.

Lemma bootstrap_pyc_kind w :
  path_kind w (path_join (Path true (script_folder E)) "bootstrap.pyc") =
  fs_kind (fs w) (bootstrap_pyc E).
Proof. reflexivity. Qed.

Lemma os_remove_run p w :
  os_remove p w =
  match path_kind w p with
  | Some File => Ret tt (removed (resolve (cwd w) p) w)
  | Some Dir => Raise IsADirectoryError w
  | None => Raise FileNotFoundError w
  end.
Proof.
  unfold os_remove. rewrite bind_run. unfold lookup_path, get at 1. cbv beta iota.
  rewrite bind_run. unfold get at 1. cbv beta iota zeta.
  by destruct (path_kind w p) as [[]|].
Qed.

(** X4.  [delete_cache_file], when it returns, leaves no [bootstrap.pyc] in
    the script folder, and every other path as it was; it launches nothing.
    When [bootstrap.pyc] is a directory, [os.remove] raises. *)
Theorem delete_cache_file_removes w :
  (forall w',
     delete_cache_file E w = Ret tt w' ->
     fs_kind (fs w') (bootstrap_pyc E) = None /\
     (forall q, q <> bootstrap_pyc E -> fs w' !! q = fs w !! q) /\
     spawned (log w') = spawned (log w)) /\
  (fs_kind (fs w) (bootstrap_pyc E) = Some Dir ->
   delete_cache_file E w = Raise IsADirectoryError w).
Proof.
  unfold delete_cache_file.
  rewrite bind_run, os_path_exists_run, bootstrap_pyc_kind.
  pose proof bootstrap_pyc_nonempty as Hne.
  destruct (fs_kind (fs w) (bootstrap_pyc E)) as [[]|] eqn:Hk.
  - rewrite bool_decide_eq_true_2 by eauto. cbv iota.
    rewrite os_remove_run, bootstrap_pyc_kind, Hk.
    change (resolve (cwd w) (path_join (Path true (script_folder E)) "bootstrap.pyc"))
      with (bootstrap_pyc E).
    set (q := bootstrap_pyc E) in *.
    split; [|done].
    intros w' [= <-]. simpl. split.
    + destruct q; [done|]. apply lookup_delete_eq.
    + split; [|by rewrite spawned_snoc].
      intros q' Hq. by rewrite lookup_delete_ne.
  - rewrite bool_decide_eq_true_2 by eauto. cbv iota.
    rewrite os_remove_run, bootstrap_pyc_kind, Hk. split; [done|]. by intros _.
  - rewrite bool_decide_eq_false_2 by (by intros [? ?]).
    split; [|done]. intros w' [= <-]. by repeat split.
Qed.

End BuildTool.

Lemma build_methodgen_returns_witness :
  let r := build_methodgen linux_host built_world in
  value r = Some (PyBool false) /\
  spawned (log (final r)) = [(msbuild_command linux_host, ["repo"; "script"])].
Proof.
  intros r.
  assert (Hv : value r = Some (PyBool false)) by (vm_compute; reflexivity).
  split; [exact Hv|].
  destruct (build_methodgen_returns linux_host built_world _ _ (returns_intro _ _ Hv))
    as [_ Hs].
  rewrite Hs. reflexivity.
Defined.

Lemma delete_cache_file_removes_witness :
  let r := delete_cache_file linux_host cached_world in
  value r = Some tt /\
  fs_kind (fs (final r)) (bootstrap_pyc linux_host) = None /\
  fs (final r) !! ["repo"; "script"] = Some Dir.
Proof.
  intros r.
  assert (Hv : value r = Some tt) by (vm_compute; reflexivity).
  destruct (delete_cache_file_removes linux_host cached_world) as [H _].
  destruct (H _ (returns_intro _ _ Hv)) as (Hgone & Hrest & _).
  split; [exact Hv|]. split; [exact Hgone|].
  fold r. rewrite Hrest; [vm_compute; reflexivity|]. vm_compute. discriminate.
Defined.

Section Handler.

Context (E : env).



Lemma build_folder_kind w :
  path_kind w (build_folder E) = fs_kind (fs w) (comps (build_folder E)).
Proof.
  unfold path_kind, resolve. simpl.
  change (walk [] (resolve [] (path_join (src_folder E) "build")))
    with (walk [] (comps (build_folder E))).
  by rewrite (walk_normal _ _ (normal_build_folder E)).
Qed.

Lemma build_folder_parent :
  removelast (comps (build_folder E)) = comps (src_folder E).
Proof.
  unfold build_folder, resolve. simpl.
  rewrite walk_normal.
  - simpl. by rewrite removelast_last.
  - apply Forall_app. split; [apply normal_src_folder|]. by repeat constructor.
Qed.

(** X6.  The first step of [setup_handler]: when the build folder exists
    nothing changes; when it is missing and [src] is a directory it is
    created, a directory; and when it is missing and [src] is not a
    directory, [os.mkdir] raises and so does [setup_handler], for every
    target, before any preamble is printed: this [os.mkdir] is not guarded
    the way [check_or_create_path] guards its own. *)
Theorem ensure_build_folder_outcome w :
  (is_Some (fs_kind (fs w) (comps (build_folder E))) ->
   ensure_build_folder E w = Ret tt w) /\
  (fs_kind (fs w) (comps (build_folder E)) = None ->
   fs_kind (fs w) (comps (src_folder E)) = Some Dir ->
   ensure_build_folder E w = Ret tt (made (comps (build_folder E)) w) /\
   fs_kind (fs (made (comps (build_folder E)) w)) (comps (build_folder E)) = Some Dir) /\
  (fs_kind (fs w) (comps (build_folder E)) = None ->
   fs_kind (fs w) (comps (src_folder E)) <> Some Dir ->
   exists e,
     ensure_build_folder E w = Raise e w /\
     forall t, setup_handler E t w = Raise e w).
Proof.
  unfold ensure_build_folder.
  rewrite bind_run, os_path_exists_run, build_folder_kind.
  assert (Hres : resolve (cwd w) (build_folder E) = comps (build_folder E)).
  { unfold resolve. simpl.
    change (walk [] (resolve [] (path_join (src_folder E) "build")))
      with (walk [] (comps (build_folder E))).
    by rewrite (walk_normal _ _ (normal_build_folder E)). }
  assert (Hmk : fs_kind (fs w) (comps (build_folder E)) = None ->
          os_mkdir (build_folder E) w =
          match fs_kind (fs w) (comps (src_folder E)) with
          | Some Dir => Ret tt (made (comps (build_folder E)) w)
          | Some File => Raise NotADirectoryError w
          | None => Raise FileNotFoundError w
          end).
  { intros Hk. unfold os_mkdir. rewrite bind_run. unfold get at 1.
    cbv beta iota zeta delta [id].
    rewrite Hres, Hk, build_folder_parent.
    change (path_eqb (build_folder E) empty_path) with false. cbv iota.
    by destruct (fs_kind (fs w) (comps (src_folder E))) as [[]|]. }
  split; [|split].
  - intros Hk. by rewrite bool_decide_eq_true_2.
  - intros Hk Hsrc. rewrite Hk.
    rewrite bool_decide_eq_false_2 by (by intros [? ?]). change (negb false) with true. cbv iota.
    rewrite (Hmk Hk), Hsrc. split; [done|].
    change (fs (made (comps (build_folder E)) w))
      with (<[comps (build_folder E) := Dir]> (fs w)).
    destruct (comps (build_folder E)); [done|].
    apply lookup_insert_eq.
  - intros Hk Hsrc. rewrite Hk.
    rewrite bool_decide_eq_false_2 by (by intros [? ?]). change (negb false) with true. cbv iota.
    rewrite (Hmk Hk).
    destruct (fs_kind (fs w) (comps (src_folder E))) as [[]|] eqn:Hs; [|done|].
    + exists NotADirectoryError. split; [done|].
      intros t. unfold setup_handler, ensure_build_folder.
      rewrite bind_run, bind_run, os_path_exists_run, build_folder_kind, Hk.
      rewrite bool_decide_eq_false_2 by (by intros [? ?]). change (negb false) with true. cbv iota.
      by rewrite (Hmk Hk).
    + exists FileNotFoundError. split; [done|].
      intros t. unfold setup_handler, ensure_build_folder.
      rewrite bind_run, bind_run, os_path_exists_run, build_folder_kind, Hk.
      rewrite bool_decide_eq_false_2 by (by intros [? ?]). change (negb false) with true. cbv iota.
      by rewrite (Hmk Hk).
Qed.

End Handler.


Lemma ensure_build_folder_outcome_witness :
  ensure_build_folder linux_host orphan_world = Raise FileNotFoundError orphan_world /\
  setup_handler linux_host "js" orphan_world = Raise FileNotFoundError orphan_world.
Proof.
  destruct (ensure_build_folder_outcome linux_host orphan_world) as (_ & _ & H).
  destruct H as (e & H1 & H2); [vm_compute; reflexivity | vm_compute; discriminate |].
  assert (He : e = FileNotFoundError).
  { assert (Hr : raised (ensure_build_folder linux_host orphan_world) = Some FileNotFoundError)
      by (vm_compute; reflexivity).
    rewrite H1 in Hr. simpl in Hr. congruence. }
  subst e. split; [exact H1 | apply H2].
Defined.

Section GateEffects.

Context (E : env).

Lemma os_mkdir_Ret p w w' :
  os_mkdir p w = Ret tt w' ->
  path_eqb p empty_path = false /\ w' = made (resolve (cwd w) p) w.
Proof.
  unfold os_mkdir. rewrite bind_run. unfold get at 1. cbv beta iota zeta delta [id].
  destruct (path_eqb p empty_path); [done|].
  destruct (fs_kind (fs w) (resolve (cwd w) p)); [done|].
  destruct (fs_kind (fs w) (removelast (resolve (cwd w) p))) as [[]|]; [done| |done].
  by intros [= <-].
Qed.

Lemma path_kind_made p w :
  path_eqb p empty_path = false ->
  path_kind (made (resolve (cwd w) p) w) p = Some Dir.
Proof.
  intros Hp. unfold path_kind. rewrite Hp.
  change (cwd (made _ w)) with (cwd w).
  change (fs (made (resolve (cwd w) p) w)) with (<[resolve (cwd w) p := Dir]> (fs w)).
  destruct (resolve (cwd w) p); [done|]. apply lookup_insert_eq.
Qed.

(** X7.  [check_or_create_path] is idempotent: once it has returned the
    path, a second call in the world it left returns the path again and
    changes nothing. *)
Theorem check_or_create_path_idempotent p w w1 :
  check_or_create_path p w = Ret p w1 ->
  check_or_create_path p w1 = Ret p w1.
Proof.
  intros H.
  destruct (path_kind w p) as [k|] eqn:Hk.
  - destruct (check_or_create_path_cases p w) as [[_ H1]|[[H1 _]|[H1 _]]];
      [|congruence|congruence].
    rewrite H1 in H. injection H as <-. exact H1.
  - rewrite (check_or_create_path_mkdir _ _ Hk) in H.
    destruct (os_mkdir p w) as [[] w2|s w2|e w2] eqn:Hm.
    + injection H as <-. apply os_mkdir_Ret in Hm as [Hp ->].
      destruct (check_or_create_path_cases p (made (resolve (cwd w) p) w))
        as [[_ H1]|[[H1 _]|[H1 _]]]; [exact H1| |];
        rewrite (path_kind_made _ _ Hp) in H1; done.
    + destruct (os_mkdir_outcome p w Hk) as [Hr|[e Hr]]; congruence.
    + destruct (os_mkdir_outcome p w Hk) as [Hr|[e' Hr]]; [congruence|].
      rewrite Hm in Hr. injection Hr as _ ->.
      injection H as Hp <-. subst p.
      rewrite (check_or_create_path_mkdir _ _ Hk), Hm. reflexivity.
Qed.

Lemma fs_kind_nonempty (f : filesystem) q : q <> [] -> fs_kind f q = f !! q.
Proof. by destruct q. Qed.

Lemma is_prefix_refl (q : list string) : is_prefix q q = true.
Proof. unfold is_prefix. apply bool_decide_eq_true_2. by rewrite firstn_all. Qed.

Lemma fs_rmtree_outside (f : filesystem) q q' :
  is_prefix q q' = false -> fs_rmtree f q !! q' = f !! q'.
Proof.
  intros Hq. unfold fs_rmtree.
  destruct (f !! q') as [k|] eqn:Hk.
  - apply map_lookup_filter_Some. split; [done|]. simpl. rewrite Hq. exact I.
  - apply map_lookup_filter_None. by left.
Qed.

Lemma fs_rmtree_inside (f : filesystem) q q' :
  is_prefix q q' = true -> fs_rmtree f q !! q' = None.
Proof.
  intros Hq. unfold fs_rmtree. apply map_lookup_filter_None. right.
  intros k _. simpl. rewrite Hq. simpl. tauto.
Qed.

(** X8.  When [overwrite_check] answers [True] for a path other than the
    root, the path does not exist afterwards, so the generator starts from
    a clean slate.  What lies outside the path is untouched, and when the
    path was a directory everything beneath it is gone with it. *)
Theorem overwrite_check_clears item w w' :
  overwrite_check item w = Ret (PyBool true) w' ->
  resolve (cwd w) item <> [] ->
  path_kind w' item = None /\
  (forall q, is_prefix (resolve (cwd w) item) q = false -> fs w' !! q = fs w !! q) /\
  (path_kind w item = Some Dir ->
   forall q, is_prefix (resolve (cwd w) item) q = true -> fs w' !! q = None).
Proof.
  rewrite overwrite_check_run. intros H Hne.
  destruct (path_kind w item) as [k|] eqn:Hk.
  2:{ injection H as <-. split; [done|]. split; [done|]. done. }
  assert (Hp : path_eqb item empty_path = false).
  { unfold path_kind in Hk. by destruct (path_eqb item empty_path). }
  destruct (overwrite w); [|done].
  set (q := resolve (cwd w) item) in *.
  destruct k; injection H as <-.
  - split; [|split; [|done]].
    + unfold path_kind. rewrite Hp. change (cwd (removed q w)) with (cwd w). fold q.
      change (fs (removed q w)) with (delete q (fs w)).
      rewrite fs_kind_nonempty by done. apply lookup_delete_eq.
    + intros q' Hq'. change (fs (removed q w)) with (delete q (fs w)).
      apply lookup_delete_ne. intros <-. by rewrite is_prefix_refl in Hq'.
  - change (fs (cleared q w)) with (fs_rmtree (fs w) q).
    split; [|split].
    + unfold path_kind. rewrite Hp. change (cwd (cleared q w)) with (cwd w). fold q.
      change (fs (cleared q w)) with (fs_rmtree (fs w) q).
      rewrite fs_kind_nonempty by done.
      apply fs_rmtree_inside, is_prefix_refl.
    + intros q' Hq'. by apply fs_rmtree_outside.
    + intros _ q' Hq'. by apply fs_rmtree_inside.
Qed.

End GateEffects.

Lemma check_or_create_path_idempotent_witness :
  let p := path_join (build_folder linux_host) "javascript" in
  let w1 := final (check_or_create_path p built_world) in
  created (log w1) = [["repo"; "src"; "build"; "javascript"]] /\
  check_or_create_path p w1 = Ret p w1.
Proof.
  intros p w1. split; [vm_compute; reflexivity|].
  apply check_or_create_path_idempotent with (w := built_world).
  apply returns_intro. vm_compute. reflexivity.
Defined.

Lemma overwrite_check_clears_witness :
  let item := Path false ["src"; "build"; "old"] in
  let r := overwrite_check item overwrite_world in
  value r = Some (PyBool true) /\
  path_kind (final r) item = None /\
  fs (final r) !! ["repo"; "src"; "build"; "old"; "CMakeCache.txt"] = None /\
  fs (final r) !! ["repo"; "src"; "build"; "older"] = Some File.
Proof.
  intros item r.
  assert (Hv : value r = Some (PyBool true)) by (vm_compute; reflexivity).
  destruct (overwrite_check_clears item overwrite_world (final r) (returns_intro _ _ Hv))
    as (Hgone & Hout & Hin); [vm_compute; discriminate|].
  split; [exact Hv|]. split; [exact Hgone|]. split.
  - apply Hin; vm_compute; reflexivity.
  - fold r. rewrite Hout; vm_compute; reflexivity.
Defined.

Section JavaScript.

Context (E : env).

Lemma no_exit_ret {A} (a : A) : no_exit (mret a : M A).
Proof. by intros w. Qed.

Lemma no_exit_bind {A B} (m : M A) (f : A -> M B) :
  no_exit m -> (forall a, no_exit (f a)) -> no_exit (m ≫= f).
Proof.
  intros Hm Hf w. rewrite bind_run. specialize (Hm w).
  destruct (m w); [apply Hf | done | done].
Qed.

Lemma no_exit_get {A} (f : world -> A) : no_exit (get f).
Proof. by intros w. Qed.

Lemma no_exit_emit e : no_exit (emit e).
Proof. by intros w. Qed.

Lemma no_exit_raise {A} e : no_exit (raise e : M A).
Proof. by intros w. Qed.

Lemma no_exit_set_fs f : no_exit (set_fs f).
Proof. by intros w. Qed.

Lemma no_exit_set_cwd d : no_exit (set_cwd d).
Proof. by intros w. Qed.

Lemma no_exit_try_except_OSError {A} (body handler : M A) :
  no_exit body -> no_exit handler -> no_exit (try_except_OSError body handler).
Proof.
  intros Hb Hh w. unfold try_except_OSError. specialize (Hb w).
  destruct (body w) as [| |e w1]; [done | done |].
  destruct (is_OSError e); [apply Hh | done].
Qed.

(** A bare [except] in front of a handler that returns swallows an exit. *)
Lemma no_exit_try_except_all {A} (body handler : M A) :
  no_exit handler -> no_exit (try_except_all body handler).
Proof.
  intros Hh w. unfold try_except_all. destruct (body w); [done | apply Hh | apply Hh].
Qed.

Ltac never_exits :=
  repeat first
    [ apply no_exit_ret | apply no_exit_get | apply no_exit_emit | apply no_exit_raise
    | apply no_exit_set_fs | apply no_exit_set_cwd
    | apply no_exit_try_except_all
    | apply no_exit_try_except_OSError
    | apply no_exit_bind; [|intros ?]
    | match goal with
      | |- no_exit (if ?b then _ else _) => destruct b
      | |- no_exit (match ?x with _ => _ end) => destruct x
      | |- no_exit (let _ := _ in _) => cbv zeta
      end ].

Lemma no_exit_check_or_create_path p : no_exit (check_or_create_path p).
Proof. unfold check_or_create_path. never_exits. Qed.

Lemma no_exit_overwrite_check p : no_exit (overwrite_check p).
Proof.
  intros w. rewrite overwrite_check_run.
  destruct (path_kind w p) as [[]|]; [| |done]; by destruct (overwrite w).
Qed.

Lemma no_exit_setup_did_succeed p : no_exit (setup_did_succeed p).
Proof. intros w. rewrite setup_did_succeed_run. by destruct (bool_decide _). Qed.

Lemma no_exit_os_chdir p : no_exit (os_chdir p).
Proof.
  unfold os_chdir, lookup_path.
  apply no_exit_bind; [apply no_exit_get|]. intros k.
  apply no_exit_bind; [apply no_exit_get|]. intros w0.
  cbv zeta. destruct k as [[]|]; never_exits.
Qed.

Lemma no_exit_launch command : no_exit (launch E command).
Proof.
  unfold launch.
  apply no_exit_bind; [apply no_exit_get|]. intros w0.
  apply no_exit_bind; [apply no_exit_emit|]. intros _.
  destruct (popen E command (fs w0) (cwd w0)); never_exits.
Qed.

Lemma no_exit_print_error_message m : no_exit (print_error_message m).
Proof. by intros w. Qed.

(** X9.  [setup_js] never ends the script with [sys.exit]: it talks to
    [emcmake] through [communicate()], not through [run_command], so what
    the process writes to stderr is printed as an error and the setup goes
    on to its verification.  (The other four setups can exit, through
    [run_command].) *)
Theorem setup_js_never_exits w : exit_status (setup_js E w) = None.
Proof.
  revert w. change (no_exit (setup_js E)). unfold setup_js.
  apply no_exit_bind; [unfold platform_dir; never_exits|]. intros dir.
  apply no_exit_bind; [apply no_exit_check_or_create_path|]. intros target_path.
  apply no_exit_bind; [unfold abspath; never_exits|]. intros item.
  apply no_exit_bind; [apply no_exit_overwrite_check|]. intros ok.
  destruct (negb (py_truthy ok)); [apply no_exit_ret|].
  apply no_exit_bind; [apply no_exit_os_chdir|]. intros _.
  apply no_exit_bind.
  { apply no_exit_try_except_OSError.
    - apply no_exit_bind; [apply no_exit_launch | intros; apply no_exit_ret].
    - apply no_exit_bind; [apply no_exit_print_error_message | intros; apply no_exit_ret]. }
  intros [pr|]; [|apply no_exit_ret].
  apply no_exit_bind; [apply no_exit_get|]. intros v.
  apply no_exit_bind.
  { destruct (truthy _); [destruct v; [by intros ?|apply no_exit_ret]|].
    destruct (truthy _); [apply no_exit_print_error_message | apply no_exit_ret]. }
  intros _.
  apply no_exit_bind; [apply no_exit_setup_did_succeed | intros; apply no_exit_ret].
Qed.

Lemma launch_fail command w :
  popen E command (fs w) (cwd w) = None ->
  launch E command w = Raise FileNotFoundError (add_event (EvSpawn command (cwd w)) w).
Proof.
  intros H. unfold launch. rewrite bind_run. simpl. by rewrite H.
Qed.

(** X10.  Without [emcmake] on the host, a [setup_js] that has passed the
    gate reports that the command could not be found right after its launch
    attempt and returns [False]; it catches the [OSError] of the launch and
    does not go on to the verification. *)
Theorem setup_js_without_emcmake w v w' :
  (forall f d, popen E (emcmake_command E) f d = None) ->
  fs_kind (fs w) (comps (build_folder E)) = Some Dir ->
  gate_open (artifact E "javascript" "Makefile") w ->
  setup_js E w = Ret v w' ->
  v = PyBool false /\
  exists l d,
    log w' =
    (l ++ [EvSpawn (emcmake_command E) d;
           EvPrint (error_line (xcode_logging w')
             "could not find emcmake command.  Run the bootstrap.py --check emscripten")])%list.
Proof.
  intros Hl Hb Hg H.
  assert (Hn : normal ["javascript"; "Makefile"]).
  { unfold normal. repeat (apply Forall_cons; split; [repeat split; discriminate|]). constructor. }
  unfold setup_js in H.
  rewrite platform_dir_js, bind_run, ret_run in H.
  destruct (output_dir_ready E w "javascript" "Makefile" Hn Hb) as (w1 & Hc & Ho & Hk).
  rewrite bind_run, Hc, bind_run, abspath_run in H.
  change (Path true (resolve (cwd w1) (path_join (path_join (build_folder E) "javascript") "Makefile")))
    with (item_under (path_join (build_folder E) "javascript") "Makefile" w1) in H.
  rewrite (item_under_artifact E w1 "javascript" "Makefile" Hn) in H.
  assert (Hpass : gate_open (artifact E "javascript" "Makefile") w1)
    by (unfold gate_open in *; rewrite Ho, Hk; exact Hg).
  destruct (overwrite_check_open E w1 "javascript" "Makefile" Hn Hpass) as [w2 Hc2].
  rewrite bind_run, Hc2 in H.
  change (negb (py_truthy (PyBool true))) with false in H. cbv iota in H.
  apply bind_Ret_inv in H as ([] & w3 & _ & H).
  rewrite bind_run in H. unfold try_except_OSError in H.
  rewrite bind_run, (launch_fail _ _ (Hl _ _)) in H.
  simpl in H. injection H as <- <-. split; [done|]. simpl.
  exists (log w3), (cwd w3). by rewrite <- app_assoc.
Qed.

End JavaScript.

Lemma setup_js_without_emcmake_witness :
  let r := setup_js bare_host built_world in
  value r = Some (PyBool false) /\
  map fst (spawned (log (final r))) = [emcmake_command bare_host].
Proof.
  intros r.
  assert (Hv : value r = Some (PyBool false)) by (vm_compute; reflexivity).
  split; [exact Hv|].
  destruct (setup_js_without_emcmake bare_host built_world (PyBool false) (final r))
    as (_ & l & d & Hlog).
  - by intros f d.
  - vm_compute. reflexivity.
  - right. vm_compute. reflexivity.
  - by apply returns_intro.
  - vm_compute. reflexivity.
Defined.

Section WrongHost.

Context (E : env).

Lemma created_app l1 l2 : created (l1 ++ l2) = (created l1 ++ created l2)%list.
Proof. apply flat_map_app. Qed.

Lemma untouched_refl w : untouched w w.
Proof. by repeat split. Qed.

Lemma untouched_trans w1 w2 w3 : untouched w1 w2 -> untouched w2 w3 -> untouched w1 w3.
Proof. intros (?&?&?) (?&?&?). repeat split; congruence. Qed.

Lemma untouched_print s w : untouched w (add_event (EvPrint s) w).
Proof.
  repeat split; simpl; [rewrite spawned_app | rewrite created_app]; simpl; by rewrite app_nil_r.
Qed.

Lemma ensure_build_folder_present w :
  is_Some (fs_kind (fs w) (comps (build_folder E))) ->
  ensure_build_folder E w = Ret tt w.
Proof.
  intros H. unfold ensure_build_folder.
  rewrite bind_run, os_path_exists_run, (build_folder_kind E).
  by rewrite bool_decide_eq_true_2.
Qed.

(** On a host that is neither macOS nor Windows the three host-bound setups
    only print. *)
Lemma setup_target_wrong_host t w :
  _platform E <> "darwin" -> _platform E <> "win32" -> _platform E <> "win64" ->
  t ∈ ["ios"; "macos"; "windows"] ->
  exists w', setup_target E t w = Ret tt w' /\ untouched w w'.
Proof.
  intros Hd H32 H64 Ht.
  assert (Hios : forall w0, exists w1, setup_ios E w0 = Ret (PyBool false) w1 /\ untouched w0 w1).
  { intros w0. eexists. unfold setup_ios, on_darwin.
    rewrite bool_decide_eq_false_2 by done. split; [reflexivity | apply untouched_print]. }
  assert (Hmac : forall w0, exists w1, setup_macos E w0 = Ret (PyBool false) w1 /\ untouched w0 w1).
  { intros w0. eexists. unfold setup_macos, on_darwin.
    rewrite bool_decide_eq_false_2 by done. split; [reflexivity | apply untouched_print]. }
  assert (Hwin : forall w0, exists w1, setup_windows E w0 = Ret (PyBool false) w1 /\ untouched w0 w1).
  { intros w0. eexists. unfold setup_windows, on_windows.
    rewrite !bool_decide_eq_false_2 by done. split; [reflexivity | apply untouched_print]. }
  assert (Hpre : forall name, untouched w (preambled name w)).
  { intros name. unfold preambled, headed.
    eapply untouched_trans; apply untouched_print. }
  repeat (apply elem_of_cons in Ht as [->|Ht]).
  - rewrite (setup_target_run E "ios" "iOS" (setup_ios E) w eq_refl eq_refl).
    destruct (Hios (preambled "iOS" w)) as (w1 & -> & Hu).
    exists w1. split; [done|]. eapply untouched_trans; [apply Hpre | exact Hu].
  - rewrite (setup_target_run E "macos" "macOS" (setup_macos E) w eq_refl eq_refl).
    destruct (Hmac (preambled "macOS" w)) as (w1 & -> & Hu).
    exists w1. split; [done|]. eapply untouched_trans; [apply Hpre | exact Hu].
  - rewrite (setup_target_run E "windows" "Windows" (setup_windows E) w eq_refl eq_refl).
    destruct (Hwin (preambled "Windows" w)) as (w1 & -> & Hu).
    exists w1. split; [done|]. eapply untouched_trans; [apply Hpre | exact Hu].
  - by apply elem_of_nil in Ht.
Qed.

Lemma main_loop_wrong_host l : forall w,
  _platform E <> "darwin" -> _platform E <> "win32" -> _platform E <> "win64" ->
  Forall (fun t => t ∈ ["ios"; "macos"; "windows"]) l ->
  is_Some (fs_kind (fs w) (comps (build_folder E))) ->
  exists w', main_loop E l w = Ret tt w' /\ untouched w w'.
Proof.
  induction l as [|t l IH]; intros w Hd H32 H64 Hl Hb.
  - exists w. split; [done | apply untouched_refl].
  - inversion Hl as [|? ? Ht Hl']; subst.
    destruct (setup_target_wrong_host t w Hd H32 H64 Ht) as (w1 & Hs & Hu).
    assert (Hvalid : t ∈ valid_platform_args).
    { unfold valid_platform_args.
      repeat (apply elem_of_cons in Ht as [->|Ht]); [| | |by apply elem_of_nil in Ht];
        repeat ((by left) || right). }
    assert (Hnall : t <> "all").
    { intros ->. repeat (apply elem_of_cons in Ht as [Ht|Ht]; [discriminate|]).
      by apply elem_of_nil in Ht. }
    destruct (IH w1 Hd H32 H64 Hl') as (w' & Hrest & Hu').
    { destruct Hu as (-> & _). exact Hb. }
    exists w'. split; [|by eapply untouched_trans].
    change (main_loop E (t :: l)) with
      ((if negb (bool_decide (t = "all")) && negb (bool_decide (t ∈ valid_platform_args))
        then print_error_message (invalid_platform_message t);; sys_exit 1
        else mret tt);; setup_handler E t;; main_loop E l).
    rewrite (bool_decide_eq_true_2 (t ∈ valid_platform_args)) by done.
    rewrite andb_false_r. rewrite bind_run, ret_run, bind_run.
    unfold setup_handler.
    rewrite bind_run, (ensure_build_folder_present w Hb).
    rewrite bool_decide_eq_false_2 by done.
    rewrite bind_run, Hs, ret_run. exact Hrest.
Qed.

Lemma delete_cache_file_ok w :
  fs_kind (fs w) (bootstrap_pyc E) <> Some Dir ->
  exists w',
    delete_cache_file E w = Ret tt w' /\
    spawned (log w') = spawned (log w) /\ created (log w') = created (log w) /\
    fs_kind (fs w') (bootstrap_pyc E) = None /\
    forall q, q <> bootstrap_pyc E -> fs w' !! q = fs w !! q.
Proof.
  intros Hk. unfold delete_cache_file.
  rewrite bind_run, os_path_exists_run, (bootstrap_pyc_kind E).
  pose proof (bootstrap_pyc_nonempty E) as Hne.
  destruct (fs_kind (fs w) (bootstrap_pyc E)) as [[]|] eqn:Hk'; [|done|].
  - rewrite bool_decide_eq_true_2 by eauto. cbv iota.
    rewrite os_remove_run, (bootstrap_pyc_kind E), Hk'.
    change (resolve (cwd w) (path_join (Path true (script_folder E)) "bootstrap.pyc"))
      with (bootstrap_pyc E).
    set (q := bootstrap_pyc E) in *.
    eexists. split; [reflexivity|]. simpl.
    rewrite spawned_app, created_app. simpl. rewrite !app_nil_r.
    split; [done|]. split; [done|]. split.
    + rewrite fs_kind_nonempty by done. apply lookup_delete_eq.
    + intros q' Hq. by rewrite lookup_delete_ne.
  - rewrite bool_decide_eq_false_2 by (by intros [? ?]).
    exists w. by repeat split.
Qed.

(** X11.  Failures of platform setups do not reach the exit status.  On a
    host that is neither macOS nor Windows, [main] asked for any list of
    the platforms ios, macos and windows, with the script folder and the
    build folder in place, returns normally: every setup has printed its
    error and returned [False], nothing was launched, no directory created,
    and the file system is as before but for the byte-code cache
    [bootstrap.pyc], which is gone. *)
Theorem main_wrong_host_returns argc a l w :
  argc <> 1%nat ->
  a_platform a = Some l ->
  Forall (fun t => t ∈ ["ios"; "macos"; "windows"]) l ->
  _platform E <> "darwin" -> _platform E <> "win32" -> _platform E <> "win64" ->
  path_kind w (Path true (script_folder E)) = Some Dir ->
  is_Some (fs_kind (fs w) (comps (build_folder E))) ->
  fs_kind (fs w) (bootstrap_pyc E) <> Some Dir ->
  exists w',
    main E argc a w = Ret tt w' /\
    spawned (log w') = spawned (log w) /\
    created (log w') = created (log w) /\
    fs_kind (fs w') (bootstrap_pyc E) = None /\
    forall q, q <> bootstrap_pyc E -> fs w' !! q = fs w !! q.
Proof.
  intros Hargc Ha Hl Hd H32 H64 Hsf Hb Hpyc.
  unfold main. rewrite bool_decide_eq_false_2 by done.
  rewrite bind_run. unfold set_flags at 1. cbv beta iota.
  set (w0 := with_flags _ _ _ w).
  assert (Hcd : os_chdir (Path true (script_folder E)) w0 =
                Ret tt (add_event (EvChdir (resolve (cwd w) (Path true (script_folder E))))
                          (with_cwd (resolve (cwd w) (Path true (script_folder E))) w0))).
  { unfold os_chdir. rewrite bind_run. unfold lookup_path, get at 1. cbv beta iota.
    change (path_kind w0 (Path true (script_folder E)))
      with (path_kind w (Path true (script_folder E))).
    rewrite Hsf. reflexivity. }
  rewrite bind_run, Hcd. set (w1 := add_event _ _).
  assert (Hu1 : untouched w w1).
  { repeat split; unfold w1; simpl;
      [rewrite spawned_app | rewrite created_app]; simpl; by rewrite app_nil_r. }
  rewrite bind_run, Ha.
  destruct (main_loop_wrong_host l w1 Hd H32 H64 Hl) as (w2 & -> & Hu2); [exact Hb|].
  pose proof (untouched_trans _ _ _ Hu1 Hu2) as (Hfs & Hsp & Hcr).
  destruct (delete_cache_file_ok w2) as (w' & Hdel & Hsp' & Hcr' & Hgone & Hrest).
  { by rewrite Hfs. }
  exists w'. split; [exact Hdel|].
  split; [congruence|]. split; [congruence|]. split; [exact Hgone|].
  intros q Hq. rewrite (Hrest q Hq). by rewrite Hfs.
Qed.

End WrongHost.

Lemma main_wrong_host_returns_witness :
  let a := Args (Some ["macos"; "ios"; "windows"; "macos"]) false false false in
  let r := main linux_host 3 a built_world in
  value r = Some tt /\ spawned (log (final r)) = [] /\ created (log (final r)) = [].
Proof.
  intros a r.
  destruct (main_wrong_host_returns linux_host 3 a ["macos"; "ios"; "windows"; "macos"]
              built_world) as (w' & Hm & Hs & Hc & _).
  - lia.
  - reflexivity.
  - repeat (apply Forall_cons; split;
            [repeat ((by left) || right)|]). constructor.
  - discriminate.
  - discriminate.
  - discriminate.
  - vm_compute. reflexivity.
  - exists Dir. vm_compute. reflexivity.
  - vm_compute. discriminate.
  - unfold r. rewrite Hm. split; [reflexivity|]. split; [exact Hs | exact Hc].
Defined.

Section Values.

Context (E : env).

Lemma android_loop_return tp tc abis : forall w v w',
  android_loop E tp tc abis w = Ret (LoopReturn v) w' -> v = PyBool false.
Proof.
  induction abis as [|abi rest IH]; intros w v w' H; [done|].
  simpl android_loop in H.
  apply bind_Ret_inv in H as (atp & w1 & _ & H).
  rewrite bind_run, abspath_run in H.
  apply bind_Ret_inv in H as (ok & w2 & _ & H).
  destruct (negb (py_truthy ok)); [by injection H as <- _|].
  do 6 (apply bind_Ret_inv in H as (? & ? & _ & H)).
  apply bind_Ret_inv in H as (r & w7 & _ & H).
  destruct (negb r); [done|]. by eapply IH.
Qed.

(** X12.  Two functions of the script never return [True].  [run_methodgen]
    returns [None] when the generated file is there and [False] otherwise;
    [setup_android] returns [False] from a closed gate and [None] in every
    other case, also when all variants were generated.  A caller testing
    their value for truth finds it false on success too. *)
Theorem value_never_true w v w' :
  (run_methodgen E w = Ret v w' -> v = PyNone \/ v = PyBool false) /\
  (setup_android E w = Ret v w' -> v = PyNone \/ v = PyBool false).
Proof.
  split.
  - unfold run_methodgen. intros H.
    apply bind_Ret_inv in H as (? & ? & _ & H).
    apply bind_Ret_inv in H as (? & ? & _ & H).
    apply bind_Ret_inv in H as (e & ? & _ & H).
    destruct (negb e).
    { apply bind_Ret_inv in H as (? & ? & _ & H). injection H as <- _. by right. }
    do 6 (apply bind_Ret_inv in H as (? & ? & _ & H)).
    apply bind_Ret_inv in H as (e' & ? & _ & H).
    destruct e'; apply bind_Ret_inv in H as (? & ? & _ & H); injection H as <- _;
      [by left | by right].
  - unfold setup_android. intros H.
    apply bind_Ret_inv in H as (? & ? & _ & H).
    apply bind_Ret_inv in H as (? & ? & _ & H).
    apply bind_Ret_inv in H as (l & ? & Hl & H).
    destruct l as [| |v0].
    + do 2 (apply bind_Ret_inv in H as (? & ? & _ & H)). injection H as <- _. by left.
    + do 2 (apply bind_Ret_inv in H as (? & ? & _ & H)). injection H as <- _. by left.
    + injection H as <- _. right. by eapply android_loop_return.
Qed.

End Values.

Lemma value_never_true_witness :
  value (run_methodgen codegen_host stale_world) = Some PyNone /\
  value (setup_android cmake_host built_world) = Some PyNone.
Proof.
  assert (H1 : value (run_methodgen codegen_host stale_world) = Some PyNone)
    by (vm_compute; reflexivity).
  assert (H2 : value (setup_android cmake_host built_world) = Some PyNone)
    by (vm_compute; reflexivity).
  destruct (value_never_true codegen_host stale_world PyNone
              (final (run_methodgen codegen_host stale_world))) as [Hr _].
  destruct (value_never_true cmake_host built_world PyNone
              (final (setup_android cmake_host built_world))) as [_ Ha].
  destruct (Hr (returns_intro _ _ H1)) as [_|Hf]; [|discriminate].
  destruct (Ha (returns_intro _ _ H2)) as [_|Hf]; [|discriminate].
  by split.
Defined.

Section Flags.

Context (E : env).

Lemma keeps_flags_ret {A} (a : A) : keeps_flags (mret a : M A).
Proof. by intros w. Qed.

Lemma keeps_flags_bind {A B} (m : M A) (f : A -> M B) :
  keeps_flags m -> (forall a, keeps_flags (f a)) -> keeps_flags (m ≫= f).
Proof.
  intros Hm Hf w. rewrite bind_run. specialize (Hm w).
  destruct (m w) as [a w1|s w1|e w1]; simpl in Hm; [|done|done].
  destruct Hm as (Hx & Hv & Ho). destruct (Hf a w1) as (Hx' & Hv' & Ho').
  repeat split; congruence.
Qed.

Lemma keeps_flags_get {A} (f : world -> A) : keeps_flags (get f).
Proof. by intros w. Qed.

Lemma keeps_flags_emit e : keeps_flags (emit e).
Proof. by intros w. Qed.

Lemma keeps_flags_raise {A} e : keeps_flags (raise e : M A).
Proof. by intros w. Qed.

Lemma keeps_flags_sys_exit {A} s : keeps_flags (sys_exit s : M A).
Proof. by intros w. Qed.

Lemma keeps_flags_set_fs f : keeps_flags (set_fs f).
Proof. by intros w. Qed.

Lemma keeps_flags_set_cwd d : keeps_flags (set_cwd d).
Proof. by intros w. Qed.

Lemma keeps_flags_set_native s : keeps_flags (set_librhino3dm_native_folder s).
Proof. by intros w. Qed.

Lemma keeps_flags_try_except_all {A} (body handler : M A) :
  keeps_flags body -> keeps_flags handler -> keeps_flags (try_except_all body handler).
Proof.
  intros Hb Hh w. unfold try_except_all. specialize (Hb w).
  destruct (body w) as [a w1|s w1|e w1]; simpl in Hb; [done| |];
    destruct Hb as (Hx & Hv & Ho); destruct (Hh w1) as (Hx' & Hv' & Ho');
    repeat split; congruence.
Qed.

Lemma keeps_flags_try_except_OSError {A} (body handler : M A) :
  keeps_flags body -> keeps_flags handler -> keeps_flags (try_except_OSError body handler).
Proof.
  intros Hb Hh w. unfold try_except_OSError. specialize (Hb w).
  destruct (body w) as [a w1|s w1|e w1]; simpl in Hb; [done|done|].
  destruct (is_OSError e); [|done].
  destruct Hb as (Hx & Hv & Ho); destruct (Hh w1) as (Hx' & Hv' & Ho');
    repeat split; congruence.
Qed.

Ltac keeps :=
  repeat first
    [ apply keeps_flags_ret | apply keeps_flags_get | apply keeps_flags_emit
    | apply keeps_flags_raise | apply keeps_flags_sys_exit
    | apply keeps_flags_set_fs | apply keeps_flags_set_cwd | apply keeps_flags_set_native
    | apply keeps_flags_try_except_all
    | apply keeps_flags_try_except_OSError
    | match goal with H : _ |- _ => simple apply H end
    | apply keeps_flags_bind; [|intros ?]
    | match goal with
      | |- keeps_flags (if ?b then _ else _) => destruct b
      | |- keeps_flags (match ?x with _ => _ end) => destruct x
      | |- keeps_flags (let _ := _ in _) => cbv zeta
      end ].

Lemma keeps_flags_run_command_loop suppress alive out err :
  keeps_flags (run_command_loop suppress alive out err).
Proof.
  intros w.
  destruct (run_command_loop_quiet suppress alive out err w) as (_ & _ & _ & Hx & Hv & Ho & _).
  by repeat split.
Qed.

Lemma keeps_flags_run_command command suppress :
  keeps_flags (run_command E command suppress).
Proof.
  unfold run_command, launch.
  apply keeps_flags_bind; [keeps|]. intros pr.
  apply keeps_flags_bind; [apply keeps_flags_run_command_loop | keeps].
Qed.

Lemma keeps_flags_check_or_create_path p : keeps_flags (check_or_create_path p).
Proof. unfold check_or_create_path, os_path_exists, lookup_path, os_mkdir. keeps. Qed.

Lemma keeps_flags_overwrite_check p : keeps_flags (overwrite_check p).
Proof.
  unfold overwrite_check, os_path_exists, os_path_isfile, os_path_isdir, lookup_path,
    print_warning_message, print, os_remove, shutil_rmtree, sleep, lookup_path.
  keeps.
Qed.

Lemma keeps_flags_setup_did_succeed p : keeps_flags (setup_did_succeed p).
Proof.
  unfold setup_did_succeed, os_path_exists, lookup_path, print_ok_message,
    print_error_message, print.
  keeps.
Qed.

Lemma keeps_flags_build_methodgen : keeps_flags (build_methodgen E).
Proof.
  pose proof keeps_flags_run_command.
  unfold build_methodgen, print_heading, abspath, os_path_exists, lookup_path,
    print_ok_message, print_error_message, print.
  keeps.
Qed.

Lemma keeps_flags_run_methodgen : keeps_flags (run_methodgen E).
Proof.
  pose proof keeps_flags_run_command.
  unfold run_methodgen, print_heading, abspath, os_path_exists, lookup_path, os_remove,
    lookup_path, print_ok_message, print_error_message, print.
  keeps.
Qed.

Lemma keeps_flags_os_chdir p : keeps_flags (os_chdir p).
Proof. unfold os_chdir, lookup_path. keeps. Qed.

Lemma keeps_flags_android_loop tp tc abis : keeps_flags (android_loop E tp tc abis).
Proof.
  induction abis as [|abi rest IH]; [apply keeps_flags_ret|].
  pose proof keeps_flags_run_command. pose proof keeps_flags_check_or_create_path.
  pose proof keeps_flags_overwrite_check. pose proof keeps_flags_setup_did_succeed.
  pose proof keeps_flags_os_chdir.
  simpl android_loop. unfold abspath, print_heading, print, sleep.
  keeps.
Qed.

Lemma keeps_flags_setup_function t setup :
  setup_function E t = Some setup -> keeps_flags setup.
Proof.
  pose proof keeps_flags_run_command. pose proof keeps_flags_check_or_create_path.
  pose proof keeps_flags_overwrite_check. pose proof keeps_flags_setup_did_succeed.
  pose proof keeps_flags_os_chdir. pose proof keeps_flags_build_methodgen.
  pose proof keeps_flags_run_methodgen. pose proof keeps_flags_android_loop.
  unfold setup_function. intros Hs.
  repeat (destruct (bool_decide _) in Hs; [injection Hs as <-|]); [| | | | |done].
  - unfold setup_js, platform_dir, abspath, launch, print_error_message, print. keeps.
  - unfold setup_ios, platform_dir, abspath, print_heading, print_error_message, print. keeps.
  - unfold setup_macos, platform_dir, abspath, print_heading, print_error_message, print. keeps.
  - unfold setup_android, platform_dir. keeps.
  - unfold setup_windows, platform_dir, abspath, print_heading, print_error_message, print.
    keeps.
Qed.

Lemma keeps_flags_setup_target t : keeps_flags (setup_target E t).
Proof.
  unfold setup_target, print_platform_preamble, print_heading, print.
  apply keeps_flags_bind; [keeps|]. intros _.
  destruct (setup_function E t) as [setup|] eqn:Hs; [|keeps].
  pose proof (keeps_flags_setup_function t setup Hs). keeps.
Qed.

Lemma keeps_flags_setup_targets l : keeps_flags (setup_targets E l).
Proof.
  induction l as [|t l IH]; [apply keeps_flags_ret|].
  pose proof (keeps_flags_setup_target t). simpl setup_targets. keeps.
Qed.

(** X13.  Only [main] writes the flags [xcode_logging], [verbose] and
    [overwrite].  Whatever [setup_handler] is asked for and however the run
    ends, by a return, an exit or an exception, the three flags are in the
    end what they were at the start: a setup cannot switch the overwrite
    permission on for the setups after it. *)
Theorem setup_handler_keeps_flags t w :
  xcode_logging (final (setup_handler E t w)) = xcode_logging w /\
  verbose (final (setup_handler E t w)) = verbose w /\
  overwrite (final (setup_handler E t w)) = overwrite w.
Proof.
  revert w. change (keeps_flags (setup_handler E t)).
  pose proof (keeps_flags_setup_targets valid_platform_args).
  pose proof (keeps_flags_setup_target t).
  unfold setup_handler, ensure_build_folder, os_path_exists, lookup_path, os_mkdir.
  keeps.
Qed.

End Flags.
